(** * clean-http-client: the request assembler, executor and builder of client.go

    A shallow embedding of [client.go].  Go strings are byte strings
    ([string]), nullable pointers are [option], a [map] is a [gmap], and a
    Go call that may return, panic or end the process is a value of
    [outcome].  The parts of the Go standard library the client calls
    ([strings], [encoding/base64], [net/textproto], [net/http.NewRequest])
    are embedded from their sources; the URL parser, the query codec and the
    network are parameters of the development. *)

From Stdlib Require Import ZArith NArith Lia List Bool Ascii String DecimalString.
From stdpp Require Import base option gmap strings.

Local Open Scope string_scope.
Local Open Scope Z_scope.

(** ** package strings *)

Module strings.

(** [s[lo:]] *)
Definition from (lo : nat) (s : string) : string :=
  substring lo (String.length s - lo) s.

(** [len(s) >= len(prefix) && s[0:len(prefix)] == prefix] *)
Definition HasPrefix (s prefix : string) : bool :=
  (String.length prefix <=? String.length s)%nat
  && String.eqb (substring 0 (String.length prefix) s) prefix.

(** [len(s) >= len(suffix) && s[len(s)-len(suffix):] == suffix] *)
Definition HasSuffix (s suffix : string) : bool :=
  (String.length suffix <=? String.length s)%nat
  && String.eqb (from (String.length s - String.length suffix) s) suffix.

Definition TrimPrefix (s prefix : string) : string :=
  if HasPrefix s prefix then from (String.length prefix) s else s.

Definition TrimSuffix (s suffix : string) : string :=
  if HasSuffix s suffix
  then substring 0 (String.length s - String.length suffix) s
  else s.

(** [LastIndex(s, c)] for a one-byte [c]: the index of the last
    occurrence, [-1] when there is none. *)
Fixpoint LastIndexByte_from (i : Z) (s : string) (c : ascii) : Z :=
  match s with
  | EmptyString => -1
  | String a s' =>
      let r := LastIndexByte_from (i + 1) s' c in
      if 0 <=? r then r else if Ascii.eqb a c then i else -1
  end.

Definition LastIndexByte (s : string) (c : ascii) : Z :=
  LastIndexByte_from 0 s c.

End strings.

(** ** package encoding/base64, [StdEncoding.EncodeToString] *)

Module base64.

Definition encodeStd : string :=
  "ABCDEFGHIJKLMNOPQRSTUVWXYZabcdefghijklmnopqrstuvwxyz0123456789+/".

Definition StdPadding : ascii := "="%char.

Definition enc (v : N) : ascii :=
  match String.get (N.to_nat (N.land v 63)) encodeStd with
  | Some c => c
  | None => StdPadding
  end.

Definition cons4 (a b c d : ascii) (s : string) : string :=
  String a (String b (String c (String d s))).

(** Three source bytes make four digits; a remainder of one or two bytes
    is padded with [=]. *)
Fixpoint Encode (src : list N) : string :=
  match src with
  | [] => ""
  | [a] =>
      let val := N.shiftl a 16 in
      cons4 (enc (N.shiftr val 18)) (enc (N.shiftr val 12))
            StdPadding StdPadding ""
  | [a; b] =>
      let val := N.lor (N.shiftl a 16) (N.shiftl b 8) in
      cons4 (enc (N.shiftr val 18)) (enc (N.shiftr val 12))
            (enc (N.shiftr val 6)) StdPadding ""
  | a :: b :: c :: rest =>
      let val := N.lor (N.lor (N.shiftl a 16) (N.shiftl b 8)) c in
      cons4 (enc (N.shiftr val 18)) (enc (N.shiftr val 12))
            (enc (N.shiftr val 6)) (enc val) (Encode rest)
  end.

Definition bytes (s : string) : list N :=
  map N_of_ascii (list_ascii_of_string s).

Definition EncodeToString (s : string) : string := Encode (bytes s).

End base64.

(** ** package net/textproto and the token table of httpguts *)

Module textproto.

Definition isAlpha (c : N) : bool :=
  ((65 <=? c) && (c <=? 90) || (97 <=? c) && (c <=? 122))%N.

Definition isDigit (c : N) : bool := ((48 <=? c) && (c <=? 57))%N.

(** [httpguts.isTokenTable]: letters, digits and
    [! # $ % & ' * + - . ^ _ ` | ~]. *)
Definition isTokenByte (a : ascii) : bool :=
  let c := N_of_ascii a in
  isAlpha c || isDigit c
  || existsb (N.eqb c) [33; 35; 36; 37; 38; 39; 42; 43; 45; 46; 94; 95; 96; 124; 126]%N.

Definition validHeaderFieldByte : ascii -> bool := isTokenByte.

Definition toUpper (a : ascii) : ascii :=
  let c := N_of_ascii a in
  if ((97 <=? c) && (c <=? 122))%N then ascii_of_N (c - 32) else a.

Definition toLower (a : ascii) : ascii :=
  let c := N_of_ascii a in
  if ((65 <=? c) && (c <=? 90))%N then ascii_of_N (c + 32) else a.

Definition isDash (a : ascii) : bool := Ascii.eqb a "-"%char.

(** The loop of [canonicalMIMEHeaderKey]: the first letter and every
    letter after a hyphen in upper case, the others in lower case. *)
Fixpoint canonical (upper : bool) (s : string) : string :=
  match s with
  | EmptyString => EmptyString
  | String c s' =>
      String (if upper then toUpper c else toLower c) (canonical (isDash c) s')
  end.

(** A key with a byte outside the token table is returned unchanged. *)
Definition CanonicalMIMEHeaderKey (s : string) : string :=
  if forallb validHeaderFieldByte (list_ascii_of_string s)
  then canonical true s
  else s.

End textproto.

(** ** package context *)

Module context.

(** [time.Duration]: a count of nanoseconds. *)
Definition Second : Z := 1000000000.

(** The contexts a caller can hand to the client: the two empty roots and
    the derived contexts, each remembering its parent.  A timeout is kept
    as the duration it was created with. *)
Inductive Context : Type :=
| Background
| TODO
| WithCancel (parent : Context)
| WithTimeout (parent : Context) (timeout : Z)
| WithValue (parent : Context) (key val : string).

#[global] Instance Context_eq_dec : EqDecision Context.
Proof. solve_decision. Defined.

(** The [ok] result of [ctx.Deadline()]. *)
Fixpoint hasDeadline (ctx : Context) : bool :=
  match ctx with
  | Background | TODO => false
  | WithCancel parent => hasDeadline parent
  | WithTimeout _ _ => true
  | WithValue parent _ _ => hasDeadline parent
  end.

Inductive CancelFunc : Type := cancel (ctx : Context).

End context.
Export context.

(** ** errors *)

(** The dynamic types an [error] value has in this package: the three error
    structs of client.go, and [errorString] for every error made by the
    standard library ([errors.New], [fmt.Errorf], a [*url.Error]), kept by
    its message.  [UnauthorizedError] and [NotFoundError] carry the fields
    of the structs; [RemoteError] wraps another error. *)
Inductive error : Type :=
| errorString (s : string)
| NotFoundError (Message URL : string)
| UnauthorizedError (Message URL : string) (Status : Z)
| RemoteError (Host : string) (err : error).

(** The [Error() string] methods. *)
Fixpoint Error (e : error) : string :=
  match e with
  | errorString s => s
  | NotFoundError Message _ => Message
  | UnauthorizedError Message _ _ => Message
  | RemoteError _ err => Error err
  end.

(** ** package net/url and net/http: the values *)

Module url.

Record URL : Type := mkURL
  { Scheme : string;
    Host : string;
    Path : string;
    RawQuery : string;
    Fragment : string }.

Definition with_Host (u : URL) (h : string) : URL :=
  mkURL (Scheme u) h (Path u) (RawQuery u) (Fragment u).

Definition with_RawQuery (u : URL) (q : string) : URL :=
  mkURL (Scheme u) (Host u) (Path u) q (Fragment u).

(** [url.Values], a [map[string][]string]. *)
Abbreviation Values := (gmap string (list string)).

(** [v[key] = append(v[key], value)] *)
Definition Add (v : Values) (key value : string) : Values :=
  <[key := ((v !!! key) ++ [value])%list]> v.

End url.

Module http.

Definition MethodGet : string := "GET".
Definition MethodPost : string := "POST".
Definition MethodPut : string := "PUT".
Definition MethodDelete : string := "DELETE".

Definition StatusOK : Z := 200.
Definition StatusUnauthorized : Z := 401.
Definition StatusNotFound : Z := 404.

(** [http.Header], a [map[string][]string]. *)
Abbreviation Header := (gmap string (list string)).

(** [h[CanonicalMIMEHeaderKey(key)] = []string{value}] *)
Definition Header_Set (h : Header) (key value : string) : Header :=
  <[textproto.CanonicalMIMEHeaderKey key := [value]]> h.

(** The first value of the key, [""] when there is none. *)
Definition Header_Get (h : Header) (key : string) : string :=
  match h !! textproto.CanonicalMIMEHeaderKey key with
  | Some (v :: _) => v
  | _ => ""
  end.

(** A request: the fields of [http.Request] the client reads or writes.
    A body (an [io.Reader]) is the bytes it yields, [None] for [nil]. *)
Record Request : Type := mkRequest
  { ctx : option Context;
    Method : string;
    URL : url.URL;
    Header_ : Header;
    Body : option string;
    Host : string }.

(** [r.Context()]: the background context when none was set. *)
Definition Request_Context (r : Request) : Context :=
  match ctx r with
  | Some c => c
  | None => Background
  end.

Definition with_ctx (r : Request) (c : Context) : Request :=
  mkRequest (Some c) (Method r) (URL r) (Header_ r) (Body r) (Host r).

Definition with_Header (r : Request) (h : Header) : Request :=
  mkRequest (ctx r) (Method r) (URL r) h (Body r) (Host r).

Definition with_URL (r : Request) (u : url.URL) : Request :=
  mkRequest (ctx r) (Method r) u (Header_ r) (Body r) (Host r).

(** [basicAuth]: [base64(username + ":" + password)] *)
Definition basicAuth (username password : string) : string :=
  base64.EncodeToString (username +:+ ":" +:+ password).

(** [r.Header.Set("Authorization", "Basic "+basicAuth(username, password))] *)
Definition SetBasicAuth (r : Request) (username password : string) : Request :=
  with_Header r
    (Header_Set (Header_ r) "Authorization" ("Basic " +:+ basicAuth username password)).

(** A response; [Request] is the request that was sent to obtain it. *)
Record Response : Type := mkResponse
  { StatusCode : Z;
    RespHeader : Header;
    RespBody : string;
    Request_ : option Request }.

(** The pool and timeout settings of an [http.Transport]. *)
Inductive ProxyFunc : Type := ProxyFromEnvironment.

Record Dialer : Type := mkDialer
  { Dialer_Timeout : Z;
    KeepAlive : Z }.

Record Transport : Type := mkTransport
  { Proxy : option ProxyFunc;
    DialContext : option Dialer;
    MaxIdleConns : Z;
    IdleConnTimeout : Z;
    TLSHandshakeTimeout : Z;
    ExpectContinueTimeout : Z }.

Record Client : Type := mkClient
  { Transport_ : option Transport;
    Timeout : Z }.

(** [validMethod]: not empty, and token bytes only. *)
Definition validMethod (method : string) : bool :=
  (0 <? String.length method)%nat
  && forallb textproto.isTokenByte (list_ascii_of_string method).

Definition hasPort (s : string) : bool :=
  strings.LastIndexByte s "]" <? strings.LastIndexByte s ":".

Definition removeEmptyPort (host : string) : string :=
  if hasPort host then strings.TrimSuffix host ":" else host.

End http.

(** ** control: return, panic, or the end of the process *)

Inductive outcome (A : Type) : Type :=
| Return (a : A)
| Panic (msg : string)
| Exit (code : Z).
Arguments Return {A} a.
Arguments Panic {A} msg.
Arguments Exit {A} code.

#[global] Instance outcome_ret : MRet outcome := @Return.
#[global] Instance outcome_bind : MBind outcome := fun A B f m =>
  match m with
  | Return a => f a
  | Panic msg => Panic msg
  | Exit code => Exit code
  end.

(** The message of the run-time panic on a nil pointer. *)
Definition nilDereference : string :=
  "runtime error: invalid memory address or nil pointer dereference".

(** Reading through a pointer. *)
Definition deref {A : Type} (p : option A) : outcome A :=
  match p with
  | Some a => Return a
  | None => Panic nilDereference
  end.

(** What the process has done to the outside: the requests it handed to the
    transport and the lines it wrote to the standard logger, latest first. *)
Record World : Type := mkWorld
  { wire : list http.Request;
    stderr : list string }.

(** A computation that acts on the world. *)
Definition IO (A : Type) : Type := World -> outcome A * World.

#[global] Instance IO_ret : MRet IO := fun A a w => (Return a, w).
#[global] Instance IO_bind : MBind IO := fun A B f m w =>
  match m w with
  | (Return a, w') => f a w'
  | (Panic msg, w') => (Panic msg, w')
  | (Exit code, w') => (Exit code, w')
  end.

Definition lift {A : Type} (o : outcome A) : IO A := fun w => (o, w).

(** ** client.go: the types *)

Definition jsonType : string := "application/json".
Definition defaultRequestTimeOut : Z := 30 * Second.

Record HttpConfig : Type := mkHttpConfig
  { baseURL : string;
    username : string;
    password : string;
    accept : string }.

Definition with_accept (c : HttpConfig) (a : string) : HttpConfig :=
  mkHttpConfig (baseURL c) (username c) (password c) a.

(** Both fields are pointers. *)
Record HttpClient : Type := mkHttpClient
  { client : option http.Client;
    config : option HttpConfig }.

(** [queryParams] is [None] for the nil map; its values are the strings
    [QueryParam] stores. *)
Record requestBuilder : Type := mkRequestBuilder
  { method : string;
    path : string;
    queryParams : option (gmap string string);
    body : option string;
    request : option http.Request;
    rb_accept : string }.

(** [strconv.Itoa] *)
Definition Itoa (n : Z) : string := NilZero.string_of_int (Z.to_int n).

(** ** a sample environment

    A stand-in for the standard library's URL parser and serialiser, for
    the query codec and for a server, on which the functions can be run. *)

Module Sample.

Definition isCTL (a : ascii) : bool :=
  let c := N_of_ascii a in ((c <? 32) || (c =? 127))%N.

(** It refuses what [url.Parse] refuses first, a control byte and a leading
    colon, and keeps any other text as the path. *)
Definition Parse (rawURL : string) : url.URL + error :=
  if existsb isCTL (list_ascii_of_string rawURL)
  then inr (errorString "net/url: invalid control character in URL")
  else if strings.HasPrefix rawURL ":"
  then inr (errorString "missing protocol scheme")
  else inl (url.mkURL "" "" rawURL "" "").

Definition String_ (u : url.URL) : string :=
  if String.eqb (url.RawQuery u) "" then url.Path u
  else url.Path u +:+ "?" +:+ url.RawQuery u.

Definition Query (u : url.URL) : url.Values := ∅.

Definition Encode (v : url.Values) : string :=
  String.concat "&"
    (map (fun kv => fst kv +:+ "=" +:+ String.concat "," (snd kv)) (map_to_list v)).

(** A server that is down for the paths ending in [/down], and answers the
    others with the status their last three bytes spell, 200 otherwise. *)
Definition statusOf (p : string) : Z :=
  if strings.HasSuffix p "401" then 401
  else if strings.HasSuffix p "404" then 404
  else if strings.HasSuffix p "500" then 500
  else 200.

Definition Do (c : http.Client) (r : http.Request)
  : option http.Response * option error :=
  let p := url.Path (http.URL r) in
  if strings.HasSuffix p "/down"
  then (None, Some (errorString "dial tcp: connection refused"))
  else (Some (http.mkResponse (statusOf p) ∅
                (default "" (http.Body r)) (Some r)), None).

End Sample.

(** ** client.go: the functions *)

Section Client.

(** [url.Parse], [URL.String], [URL.Query] and
    [url.Values.Encode] of the standard library, and what
    [http.Client.Do] answers: a response, an error, or both. *)
Variable url_Parse : string -> url.URL + error.
Variable URL_String : url.URL -> string.
Variable URL_Query : url.URL -> url.Values.
Variable Values_Encode : url.Values -> string.
Variable client_Do : http.Client -> http.Request -> option http.Response * option error.

(** [http.NewRequestWithContext]: an empty method means GET; the method is
    checked, then the context, then the URL is parsed and an empty port
    removed from its host.  The request starts with an empty header. *)
Definition NewRequestWithContext (ctx : option Context) (method url_ : string)
    (body : option string) : option http.Request * option error :=
  let method := if String.eqb method "" then "GET" else method in
  if negb (http.validMethod method)
  then (None, Some (errorString ("net/http: invalid method " +:+ method)))
  else match ctx with
       | None => (None, Some (errorString "net/http: nil Context"))
       | Some ctx =>
           match url_Parse url_ with
           | inr err => (None, Some err)
           | inl u =>
               let u := url.with_Host u (http.removeEmptyPort (url.Host u)) in
               (Some (http.mkRequest (Some ctx) method u ∅ body (url.Host u)), None)
           end
       end.

(** [http.NewRequest] *)
Definition NewRequest (method url_ : string) (body : option string)
  : option http.Request * option error :=
  NewRequestWithContext (Some Background) method url_ body.

(** [Request.WithContext] *)
Definition WithContext (r : http.Request) (ctx : option Context) : outcome http.Request :=
  match ctx with
  | None => Panic "nil context"
  | Some c => Return (http.with_ctx r c)
  end.

Definition NewHttpConfig (baseURL username password accept : string) : HttpConfig :=
  let config := mkHttpConfig baseURL username password jsonType in
  if negb (String.eqb accept "")
  then with_accept config accept
  else config.

Definition NewDefaultHttpConfig (baseURL : string) : HttpConfig :=
  NewHttpConfig baseURL "" "" jsonType.

(** The transport the constructors make. *)
Definition pooledClient : http.Client :=
  http.mkClient
    (Some (http.mkTransport
             (Some http.ProxyFromEnvironment)
             (Some (http.mkDialer defaultRequestTimeOut defaultRequestTimeOut))
             100 (90 * Second) (10 * Second) (1 * Second)))
    defaultRequestTimeOut.

Definition NewDefaultHttpClient (baseURL : string) : HttpClient :=
  let client := pooledClient in
  let config := NewDefaultHttpConfig baseURL in
  mkHttpClient (Some client) (Some config).

Definition NewHttpClientWithConfig (config : option HttpConfig) : outcome HttpClient :=
  match config with
  | None => Panic "config is nil"
  | Some _ =>
      let client := pooledClient in
      Return (mkHttpClient (Some client) config)
  end.

Definition NewHttpClientWithConfigAndClient (config : option HttpConfig)
    (client : option http.Client) : outcome HttpClient :=
  match config with
  | None => Panic "config is nil"
  | Some _ =>
      match client with
      | None => Panic "client is nil"
      | Some _ => Return (mkHttpClient client config)
      end
  end.

Definition createDefaultContext (ctx : option Context) : Context * CancelFunc :=
  match ctx with
  | Some ctx =>
      let c := WithTimeout ctx defaultRequestTimeOut in (c, cancel c)
  | None =>
      let c := WithTimeout Background defaultRequestTimeOut in (c, cancel c)
  end.

(** [http.NewRequest] returns a request or an error, never neither, so the
    second case of the match does not occur. *)
Definition createRequest (ctx : option Context) (baseURL endpoint method : string)
    (body : option string) (username password : string)
  : option http.Request * option error :=
  let baseURL := strings.TrimSuffix baseURL "/" in
  let endpoint := strings.TrimPrefix endpoint "/" in
  match NewRequest method (baseURL +:+ "/" +:+ endpoint) body with
  | (request, Some err) => (request, Some err)
  | (None, None) => (None, None)
  | (Some request, None) =>
      let request :=
        http.with_Header request (http.Header_Set (http.Header_ request) "Content-Type" jsonType) in
      let request :=
        http.with_Header request (http.Header_Set (http.Header_ request) "Accept" jsonType) in
      let request :=
        if negb (String.eqb username "") && negb (String.eqb password "")
        then http.SetBasicAuth request username password
        else request in
      (Some request, None)
  end.

(** [log.Fatal]: the value is written to the standard logger, then
    [os.Exit(1)]. *)
Definition log_Fatal (v : error) : IO unit :=
  fun w => (Exit 1, mkWorld (wire w) (Error v :: stderr w)).

(** [handleError] with its first statement, the call of the logger, as
    [logFatal]. *)
Definition handleError_with (logFatal : error -> IO unit)
    (resp : option http.Response) (err : error)
  : IO (option http.Response * option error) :=
  _ ← logFatal err;
  lift (
    r ← deref resp;
    if http.StatusCode r =? http.StatusUnauthorized then
      rq ← deref (http.Request_ r);
      Return (resp, Some (UnauthorizedError "Authentication required."
                            (URL_String (http.URL rq)) 0))
    else if http.StatusCode r =? http.StatusNotFound then
      rq ← deref (http.Request_ r);
      Return (resp, Some (NotFoundError "Resource not found."
                            (URL_String (http.URL rq))))
    else
      rq ← deref (http.Request_ r);
      Return (resp, Some (RemoteError (url.Host (http.URL rq))
                            (errorString (Itoa (http.StatusCode r) +:+ ": ("
                                          +:+ URL_String (http.URL rq) +:+ ")"))))).

Definition handleError : option http.Response -> error
                         -> IO (option http.Response * option error) :=
  handleError_with log_Fatal.

(** [h.client.Do(r)]: the request goes on the wire. *)
Definition Do (c : http.Client) (r : http.Request)
  : IO (option http.Response * option error) :=
  fun w => (Return (client_Do c r), mkWorld (r :: wire w) (stderr w)).

Definition ExecuteRequest (h : HttpClient) (r : http.Request)
  : IO (option http.Response * option error) :=
  r ← lift (if bool_decide (http.Request_Context r = Background)
            then let '(ctx, _) := createDefaultContext (Some (http.Request_Context r)) in
                 WithContext r (Some ctx)
            else Return r);
  c ← lift (deref (client h));
  '(resp, err) ← Do c r;
  match err with
  | Some err => handleError resp err
  | None => mret (resp, None)
  end.

Definition GetFromWithContext (h : HttpClient) (ctx : option Context) (path : string)
  : IO (option http.Response * option error) :=
  cfg ← lift (deref (config h));
  match createRequest ctx (baseURL cfg) path http.MethodGet None (username cfg) (password cfg) with
  | (_, Some err) => mret (None, Some err)
  | (request, None) =>
      request ← lift (deref request);
      requestWithCtx ← lift (WithContext request ctx);
      ExecuteRequest h requestWithCtx
  end.

Definition PostToWithContext (h : HttpClient) (ctx : option Context) (path : string)
    (body : option string) : IO (option http.Response * option error) :=
  cfg ← lift (deref (config h));
  match createRequest ctx (baseURL cfg) path http.MethodPost body (username cfg) (password cfg) with
  | (_, Some err) => mret (None, Some err)
  | (request, None) =>
      request ← lift (deref request);
      requestWithCtx ← lift (WithContext request ctx);
      ExecuteRequest h requestWithCtx
  end.

Definition PutToWithContext (h : HttpClient) (ctx : option Context) (path : string)
    (body : option string) : IO (option http.Response * option error) :=
  cfg ← lift (deref (config h));
  match createRequest ctx (baseURL cfg) path http.MethodPut body (username cfg) (password cfg) with
  | (_, Some err) => mret (None, Some err)
  | (request, None) =>
      request ← lift (deref request);
      requestWithCtx ← lift (WithContext request ctx);
      ExecuteRequest h requestWithCtx
  end.

Definition DeleteFromWithContext (h : HttpClient) (ctx : option Context) (path : string)
  : IO (option http.Response * option error) :=
  cfg ← lift (deref (config h));
  match createRequest ctx (baseURL cfg) path http.MethodDelete None (username cfg) (password cfg) with
  | (_, Some err) => mret (None, Some err)
  | (request, None) =>
      request ← lift (deref request);
      requestWithCtx ← lift (WithContext request ctx);
      ExecuteRequest h requestWithCtx
  end.

Definition GetFrom (h : HttpClient) (path : string) :=
  GetFromWithContext h (Some Background) path.

Definition PostTo (h : HttpClient) (path : string) (body : option string) :=
  PostToWithContext h (Some Background) path body.

Definition PutTo (h : HttpClient) (path : string) (body : option string) :=
  PutToWithContext h (Some Background) path body.

Definition DeleteFrom (h : HttpClient) (path : string) :=
  DeleteFromWithContext h (Some Background) path.

Definition GetRequest (h : HttpClient) (path : string)
  : outcome (option http.Request * option error) :=
  cfg ← deref (config h);
  Return (createRequest None (baseURL cfg) path http.MethodGet None (username cfg) (password cfg)).

Definition PostRequest (h : HttpClient) (path : string) (body : option string)
  : outcome (option http.Request * option error) :=
  cfg ← deref (config h);
  Return (createRequest None (baseURL cfg) path http.MethodPost body (username cfg) (password cfg)).

Definition PutRequest (h : HttpClient) (path : string) (body : option string)
  : outcome (option http.Request * option error) :=
  cfg ← deref (config h);
  Return (createRequest None (baseURL cfg) path http.MethodPut body (username cfg) (password cfg)).

Definition DeleteRequest (h : HttpClient) (path : string)
  : outcome (option http.Request * option error) :=
  cfg ← deref (config h);
  Return (createRequest None (baseURL cfg) path http.MethodDelete None (username cfg) (password cfg)).

(** *** the request builder *)

Definition NewRequestBuilder : requestBuilder :=
  mkRequestBuilder "" "" None None None "".

Definition rb_Get (rb : requestBuilder) : requestBuilder :=
  mkRequestBuilder http.MethodGet (path rb) (queryParams rb) (body rb) (request rb) (rb_accept rb).

Definition rb_Post (rb : requestBuilder) : requestBuilder :=
  mkRequestBuilder http.MethodPost (path rb) (queryParams rb) (body rb) (request rb) (rb_accept rb).

Definition rb_Put (rb : requestBuilder) : requestBuilder :=
  mkRequestBuilder http.MethodPut (path rb) (queryParams rb) (body rb) (request rb) (rb_accept rb).

Definition rb_Delete (rb : requestBuilder) : requestBuilder :=
  mkRequestBuilder http.MethodDelete (path rb) (queryParams rb) (body rb) (request rb) (rb_accept rb).

Definition Path (rb : requestBuilder) (path_ : string) : requestBuilder :=
  mkRequestBuilder (method rb) path_ (queryParams rb) (body rb) (request rb) (rb_accept rb).

Definition WithContent (rb : requestBuilder) (body_ : option string) : requestBuilder :=
  mkRequestBuilder (method rb) (path rb) (queryParams rb) body_ (request rb) (rb_accept rb).

Definition AsJson (rb : requestBuilder) : requestBuilder :=
  mkRequestBuilder (method rb) (path rb) (queryParams rb) (body rb) (request rb) jsonType.

Definition QueryParam (rb : requestBuilder) (key value : string) : requestBuilder :=
  let qp := match queryParams rb with
            | None => ∅
            | Some m => m
            end in
  mkRequestBuilder (method rb) (path rb) (Some (<[key := value]> qp))
                   (body rb) (request rb) (rb_accept rb).

(** The query parameters are read through [request], whatever [err] is;
    [err] is looked at afterwards. *)
Definition Build (rb : requestBuilder) : outcome (option http.Request * option error) :=
  let '(request, err) := NewRequest (method rb) (path rb) (body rb) in
  request ←
    match queryParams rb with
    | Some qp =>
        rq ← deref request;
        let queryValues := URL_Query (http.URL rq) in
        let queryValues :=
          map_fold (fun key value acc => url.Add acc key value) queryValues qp in
        Return (Some (http.with_URL rq
                        (url.with_RawQuery (http.URL rq) (Values_Encode queryValues))))
    | None => Return request
    end;
  match err with
  | Some err => Return (request, Some err)
  | None => Return (request, None)
  end.

End Client.

(** ** the first version of the client

    The file that precedes client.go in the repository: [createRequest] and
    [executeRequest] are methods of the client, and they panic where
    client.go returns an error. *)

Module Legacy.

Definition JSON_TYPE : string := "application/json".

Record HttpConfig : Type := mkHttpConfig
  { baseUrl : string;
    username : string;
    password : string;
    accept : string }.

Record HttpClient : Type := mkHttpClient
  { client : option http.Client;
    config : option HttpConfig }.

Definition NewHttpConfig (baseUrl username password accept : string) : HttpConfig :=
  let config := mkHttpConfig baseUrl username password JSON_TYPE in
  if negb (String.eqb accept "")
  then mkHttpConfig baseUrl username password accept
  else config.

Definition DefaultHttpConfig (baseUrl : string) : HttpConfig :=
  NewHttpConfig baseUrl "" "" JSON_TYPE.

(** The configuration is stored as it comes, nil or not. *)
Definition NewHttpClient (config : option HttpConfig) : HttpClient :=
  mkHttpClient (Some pooledClient) config.

Definition NewDefaultHttpClient (baseUrl : string) : HttpClient :=
  mkHttpClient (Some pooledClient) (Some (DefaultHttpConfig baseUrl)).

Section Methods.

Variable url_Parse : string -> url.URL + error.
Variable client_Do : http.Client -> http.Request -> option http.Response * option error.

(** Only the base URL is trimmed; an error of [http.NewRequest] is the
    value of a panic. *)
Definition createRequest (h : HttpClient) (endpoint method : string)
    (body : option string) : outcome http.Request :=
  cfg ← deref (config h);
  let baseUrl := strings.TrimSuffix (baseUrl cfg) "/" in
  match NewRequest url_Parse method (baseUrl +:+ "/" +:+ endpoint) body with
  | (_, Some err) => Panic (Error err)
  | (request, None) =>
      request ← deref request;
      let request :=
        http.with_Header request
          (http.Header_Set (http.Header_ request) "Content-Type" JSON_TYPE) in
      let request :=
        http.with_Header request
          (http.Header_Set (http.Header_ request) "Accept" JSON_TYPE) in
      let request :=
        if negb (String.eqb (username cfg) "") && negb (String.eqb (password cfg) "")
        then http.SetBasicAuth request (username cfg) (password cfg)
        else request in
      Return request
  end.

Definition executeRequest (h : HttpClient) (r : http.Request)
  : IO (option http.Response) :=
  c ← lift (deref (client h));
  '(resp, error) ← Do client_Do c r;
  match error with
  | Some error => lift (Panic (Error error))
  | None => mret resp
  end.

Definition Get (h : HttpClient) (endpoint : string) : IO (option http.Response) :=
  request ← lift (createRequest h endpoint http.MethodGet None);
  executeRequest h request.

Definition Post (h : HttpClient) (endpoint : string) (body : option string)
  : IO (option http.Response) :=
  request ← lift (createRequest h endpoint http.MethodPost body);
  executeRequest h request.

Definition Put (h : HttpClient) (endpoint : string) (body : option string)
  : IO (option http.Response) :=
  request ← lift (createRequest h endpoint http.MethodPut body);
  executeRequest h request.

Definition Delete (h : HttpClient) (endpoint : string) : IO (option http.Response) :=
  request ← lift (createRequest h endpoint http.MethodDelete None);
  executeRequest h request.

End Methods.

End Legacy.

(** Sample values: a configuration with credentials and an [accept] that
    is not the JSON media type, a client over it, bare requests, and the
    request [createRequest] assembles for [/items]. *)

Module SampleData.

Definition cfg : HttpConfig := mkHttpConfig "https://h/api/" "user" "pass" "text/xml".

Definition h : HttpClient := mkHttpClient (Some pooledClient) (Some cfg).

Definition w0 : World := mkWorld [] [].

Definition req (c : Context) (target : string) : http.Request :=
  http.mkRequest (Some c) "GET" (url.mkURL "" "" target "" "") ∅ None "".

Definition assembled : http.Request :=
  http.mkRequest (Some Background) "GET" (url.mkURL "" "" "https://h/api/items" "" "")
    (<["Authorization" := ["Basic dXNlcjpwYXNz"]]>
       (<["Accept" := ["application/json"]]>
          (<["Content-Type" := ["application/json"]]> ∅)))
    None "".

Definition refused : error := errorString "dial tcp: connection refused".


(** [NewRequestBuilder().Get().Path(":bad").QueryParam("a", "1")] *)
Definition badBuilder : requestBuilder :=
  QueryParam (Path (rb_Get NewRequestBuilder) ":bad") "a" "1".

End SampleData.

(** More sample values: the requests [createRequest] assembles with and
    without credentials, a configuration whose base URL the sample parser
    refuses, and clients of the first version. *)

Module SampleMore.

Definition jsonHeader : http.Header :=
  <["Accept" := ["application/json"]]> (<["Content-Type" := ["application/json"]]> ∅).

Definition plain (method_ target : string) (body_ : option string) : http.Request :=
  http.mkRequest (Some Background) method_ (url.mkURL "" "" target "" "")
    jsonHeader body_ "".

Definition authed (method_ target : string) (body_ : option string) : http.Request :=
  http.mkRequest (Some Background) method_ (url.mkURL "" "" target "" "")
    (<["Authorization" := ["Basic dXNlcjpwYXNz"]]> jsonHeader) body_ "".

Definition bare (method_ target : string) : http.Request :=
  http.mkRequest (Some Background) method_ (url.mkURL "" "" target "" "") ∅ None "".

Definition badCfg : HttpConfig := mkHttpConfig ":bad" "" "" "application/json".

Definition badClient : HttpClient := mkHttpClient (Some pooledClient) (Some badCfg).

Definition legacyCfg : Legacy.HttpConfig := Legacy.NewHttpConfig "https://h/api/" "" "" "".

Definition legacyClient : Legacy.HttpClient := Legacy.NewHttpClient (Some legacyCfg).

(** [NewRequestBuilder().Get().Path("https://h/x")] *)
Definition goodBuilder : requestBuilder := Path (rb_Get NewRequestBuilder) "https://h/x".

End SampleMore.

(** The method [http.NewRequest] checks: GET stands in for the empty one. *)
Definition effectiveMethod (method : string) : string :=
  if String.eqb method "" then "GET" else method.

(** The request [ExecuteRequest] hands to the transport, after its first
    statement: the one it was given, under the default timeout when its
    context is the background context. *)
Definition dispatched (r : http.Request) : http.Request :=
  if bool_decide (http.Request_Context r = Background)
  then http.with_ctx r (WithTimeout Background defaultRequestTimeOut)
  else r.

(** What the claim on URL assembly asks of the two parts that are joined by
    ["/"]: the left one does not end with a slash and the right one does not
    begin with one, so that exactly one slash separates them. *)
Definition oneSeparatingSlash (left right : string) : bool :=
  negb (strings.HasSuffix left "/") && negb (strings.HasPrefix right "/").

(** * Properties *)

(** ** strings *)

Section StringFacts.

Lemma length_app (a b : string) :
  String.length (a +:+ b) = (String.length a + String.length b)%nat.
Proof. induction a as [|c a IH]; simpl; [reflexivity | now rewrite IH]. Qed.

Lemma substring_0_0 (s : string) : substring 0 0 s = "".
Proof. destruct s; reflexivity. Qed.

Lemma substring_all (s : string) : substring 0 (String.length s) s = s.
Proof. induction s as [|c s IH]; simpl; [reflexivity | now rewrite IH]. Qed.

Lemma substring_app_l (a b : string) : substring 0 (String.length a) (a +:+ b) = a.
Proof.
  induction a as [|c a IH]; simpl.
  - apply substring_0_0.
  - now rewrite IH.
Qed.

Lemma substring_app_r (a b : string) :
  substring (String.length a) (String.length b) (a +:+ b) = b.
Proof.
  induction a as [|c a IH]; simpl.
  - apply substring_all.
  - exact IH.
Qed.

Lemma HasSuffix_app (a suffix : string) : strings.HasSuffix (a +:+ suffix) suffix = true.
Proof.
  unfold strings.HasSuffix, strings.from.
  rewrite length_app.
  replace (String.length a + String.length suffix - String.length suffix)%nat
    with (String.length a) by lia.
  replace (String.length a + String.length suffix - String.length a)%nat
    with (String.length suffix) by lia.
  rewrite substring_app_r, String.eqb_refl, andb_true_r.
  apply Nat.leb_le; lia.
Qed.

Lemma TrimSuffix_app (a suffix : string) : strings.TrimSuffix (a +:+ suffix) suffix = a.
Proof.
  unfold strings.TrimSuffix.
  rewrite HasSuffix_app, length_app.
  replace (String.length a + String.length suffix - String.length suffix)%nat
    with (String.length a) by lia.
  apply substring_app_l.
Qed.

Lemma TrimSuffix_none (s suffix : string) :
  strings.HasSuffix s suffix = false -> strings.TrimSuffix s suffix = s.
Proof. unfold strings.TrimSuffix; now intros ->. Qed.

Lemma HasPrefix_app (prefix b : string) : strings.HasPrefix (prefix +:+ b) prefix = true.
Proof.
  unfold strings.HasPrefix.
  rewrite substring_app_l, String.eqb_refl, andb_true_r, length_app.
  apply Nat.leb_le; lia.
Qed.

Lemma TrimPrefix_app (prefix b : string) : strings.TrimPrefix (prefix +:+ b) prefix = b.
Proof.
  unfold strings.TrimPrefix, strings.from.
  rewrite HasPrefix_app, length_app.
  replace (String.length prefix + String.length b - String.length prefix)%nat
    with (String.length b) by lia.
  apply substring_app_r.
Qed.

Lemma TrimPrefix_none (s prefix : string) :
  strings.HasPrefix s prefix = false -> strings.TrimPrefix s prefix = s.
Proof. unfold strings.TrimPrefix; now intros ->. Qed.

End StringFacts.

(** ** the request assembler *)

Section Assembler.

Variable url_Parse : string -> url.URL + error.

Lemma canonical_Content_Type : textproto.CanonicalMIMEHeaderKey "Content-Type" = "Content-Type".
Proof. reflexivity. Qed.

Lemma canonical_Accept : textproto.CanonicalMIMEHeaderKey "Accept" = "Accept".
Proof. reflexivity. Qed.

Lemma canonical_Authorization :
  textproto.CanonicalMIMEHeaderKey "Authorization" = "Authorization".
Proof. reflexivity. Qed.

(** A request of [http.NewRequest] comes without an error, with an empty
    header, and with the URL the parser made of the text. *)
Lemma NewRequest_Some (method url_ : string) (body : option string)
    (r : http.Request) (e : option error) :
  NewRequest url_Parse method url_ body = (Some r, e) ->
  e = None /\ http.Header_ r = ∅ /\
  exists u, url_Parse url_ = inl u /\
            http.URL r = url.with_Host u (http.removeEmptyPort (url.Host u)).
Proof.
  unfold NewRequest, NewRequestWithContext.
  destruct (negb _); [discriminate|].
  destruct (url_Parse url_) as [u|err]; [|discriminate].
  intros [= <- <-]. repeat split. now exists u.
Qed.

(** [http.NewRequest] returns a request or an error, never both or
    neither. *)
Lemma NewRequest_cases (method url_ : string) (body : option string) :
  (exists r, NewRequest url_Parse method url_ body = (Some r, None))
  \/ (exists err, NewRequest url_Parse method url_ body = (None, Some err)).
Proof.
  unfold NewRequest, NewRequestWithContext.
  destruct (negb _); [right; eauto|].
  destruct (url_Parse url_); [left|right]; eauto.
Qed.

Lemma NewRequest_parsed (method url_ : string) (body : option string) (u : url.URL) :
  http.validMethod (effectiveMethod method) = true ->
  url_Parse url_ = inl u ->
  exists r, NewRequest url_Parse method url_ body = (Some r, None)
            /\ http.URL r = url.with_Host u (http.removeEmptyPort (url.Host u)).
Proof.
  unfold NewRequest, NewRequestWithContext, effectiveMethod.
  intros -> ->. simpl. eauto.
Qed.

Lemma NewRequest_rejected (method url_ : string) (body : option string) (err : error) :
  http.validMethod (effectiveMethod method) = true ->
  url_Parse url_ = inr err ->
  NewRequest url_Parse method url_ body = (None, Some err).
Proof.
  unfold NewRequest, NewRequestWithContext, effectiveMethod.
  now intros -> ->.
Qed.

(** The header of a request of [createRequest], spelled out. *)
Lemma createRequest_Some (ctx : option Context) (base ep method : string)
    (body : option string) (user pw : string) (r : http.Request) (e : option error) :
  createRequest url_Parse ctx base ep method body user pw = (Some r, e) ->
  e = None /\
  (exists u, url_Parse (strings.TrimSuffix base "/" +:+ "/" +:+ strings.TrimPrefix ep "/") = inl u
             /\ http.URL r = url.with_Host u (http.removeEmptyPort (url.Host u))) /\
  http.Header_ r =
    let h := <["Accept" := [jsonType]]> (<["Content-Type" := [jsonType]]> ∅) in
    if negb (String.eqb user "") && negb (String.eqb pw "")
    then <["Authorization" := ["Basic " +:+ http.basicAuth user pw]]> h
    else h.
Proof.
  unfold createRequest.
  destruct (NewRequest _ _ _ _) as [[r0|] [err|]] eqn:E; try discriminate.
  - apply NewRequest_Some in E as [? _]; discriminate.
  - apply NewRequest_Some in E as (_ & Hh & u & Hu & HU).
    intros [= <- <-]. split; [reflexivity|]. split.
    + exists u. split; [exact Hu|].
      destruct (negb _ && negb _); exact HU.
    + destruct (negb _ && negb _); simpl; unfold http.Header_Set; simpl;
        rewrite Hh; reflexivity.
Qed.

(** C4: every request [createRequest] produces carries [Content-Type] and
    [Accept], each with the single value ["application/json"].  The
    [accept] value of the configuration is not among the inputs of
    [createRequest], and the request methods of a client hand it the base
    URL and the credentials only: a client whose configuration differs in
    [accept] alone builds the same requests. *)
Theorem createRequest_json_headers (cfg : HttpConfig) (ctx : option Context)
    (ep method_ : string) (body_ : option string) (r : http.Request) :
  createRequest url_Parse ctx (baseURL cfg) ep method_ body_ (username cfg) (password cfg)
    = (Some r, None) ->
  http.Header_ r !! "Content-Type" = Some [jsonType]
  /\ http.Header_ r !! "Accept" = Some [jsonType]
  /\ http.Header_Get (http.Header_ r) "Content-Type" = "application/json"
  /\ http.Header_Get (http.Header_ r) "Accept" = "application/json"
  /\ forall (a : string) (c : option http.Client),
       let h := mkHttpClient c (Some (with_accept cfg a)) in
       let h' := mkHttpClient c (Some cfg) in
       GetRequest url_Parse h ep = GetRequest url_Parse h' ep
       /\ PostRequest url_Parse h ep body_ = PostRequest url_Parse h' ep body_
       /\ PutRequest url_Parse h ep body_ = PutRequest url_Parse h' ep body_
       /\ DeleteRequest url_Parse h ep = DeleteRequest url_Parse h' ep.
Proof.
  intros H. apply createRequest_Some in H as (_ & _ & Hh).
  assert (Hct : http.Header_ r !! "Content-Type" = Some [jsonType]).
  { rewrite Hh. simpl. destruct (negb _ && negb _).
    - rewrite lookup_insert_ne by done. rewrite lookup_insert_ne by done.
      apply lookup_insert_eq.
    - rewrite lookup_insert_ne by done. apply lookup_insert_eq. }
  assert (Hac : http.Header_ r !! "Accept" = Some [jsonType]).
  { rewrite Hh. simpl. destruct (negb _ && negb _).
    - rewrite lookup_insert_ne by done. apply lookup_insert_eq.
    - apply lookup_insert_eq. }
  repeat split; try assumption.
  - unfold http.Header_Get. rewrite canonical_Content_Type, Hct. reflexivity.
  - unfold http.Header_Get. rewrite canonical_Accept, Hac. reflexivity.
Qed.

(** C7: when the user name and the password are both non-empty, the request
    of [createRequest] carries [Authorization] with the single value
    ["Basic "] followed by the standard base64 encoding of
    [username:password]; when either is empty it carries no
    [Authorization] header. *)
Theorem createRequest_basic_auth (ctx : option Context) (base ep method_ : string)
    (body_ : option string) (user pw : string) (r : http.Request) :
  createRequest url_Parse ctx base ep method_ body_ user pw = (Some r, None) ->
  (user <> "" /\ pw <> "" ->
     http.Header_ r !! "Authorization"
       = Some ["Basic " +:+ base64.EncodeToString (user +:+ ":" +:+ pw)]
     /\ http.Header_Get (http.Header_ r) "Authorization"
       = "Basic " +:+ base64.EncodeToString (user +:+ ":" +:+ pw))
  /\ (user = "" \/ pw = "" ->
     http.Header_ r !! "Authorization" = None
     /\ http.Header_Get (http.Header_ r) "Authorization" = "").
Proof.
  intros H. apply createRequest_Some in H as (_ & _ & Hh).
  unfold http.Header_Get. rewrite canonical_Authorization, Hh. simpl. split.
  - intros [Hu Hp].
    apply String.eqb_neq in Hu, Hp. rewrite Hu, Hp. simpl.
    rewrite lookup_insert_eq. split; reflexivity.
  - intros Hor.
    assert (E : negb (String.eqb user "") && negb (String.eqb pw "") = false).
    { destruct Hor as [-> | ->]; simpl; [reflexivity|].
      now rewrite andb_false_r. }
    rewrite E.
    rewrite lookup_insert_ne by done. rewrite lookup_insert_ne by done.
    rewrite lookup_empty. split; reflexivity.
Qed.

End Assembler.

Section AssemblerURL.

Variable url_Parse : string -> url.URL + error.

(** C3, as the code has it: [createRequest] removes one trailing slash from
    the base URL when there is one ([base] is [b/]) and nothing otherwise,
    one leading slash from the path when there is one ([ep] is [/p]) and
    nothing otherwise, and hands [b/p] to the URL parser: the request it
    returns has the URL parsed from that text, and a text the parser
    refuses is returned as the error.  When [b] does not end with a slash
    and [p] does not begin with one, that is, when the base URL had at most
    one trailing slash and the path at most one leading slash, exactly one
    slash separates them. *)
Theorem createRequest_one_separating_slash (ctx : option Context)
    (b p base ep method_ : string) (body_ : option string) (user pw : string) :
  (base = b +:+ "/" \/ (base = b /\ strings.HasSuffix b "/" = false)) ->
  (ep = "/" +:+ p \/ (ep = p /\ strings.HasPrefix p "/" = false)) ->
  strings.TrimSuffix base "/" = b
  /\ strings.TrimPrefix ep "/" = p
  /\ (forall r, createRequest url_Parse ctx base ep method_ body_ user pw = (Some r, None) ->
        exists u, url_Parse (b +:+ "/" +:+ p) = inl u
                  /\ http.URL r = url.with_Host u (http.removeEmptyPort (url.Host u)))
  /\ (http.validMethod (effectiveMethod method_) = true ->
      (forall u, url_Parse (b +:+ "/" +:+ p) = inl u ->
         exists r, createRequest url_Parse ctx base ep method_ body_ user pw = (Some r, None)
                   /\ http.URL r = url.with_Host u (http.removeEmptyPort (url.Host u)))
      /\ (forall err, url_Parse (b +:+ "/" +:+ p) = inr err ->
            createRequest url_Parse ctx base ep method_ body_ user pw = (None, Some err)))
  /\ (strings.HasSuffix b "/" = false -> strings.HasPrefix p "/" = false ->
      oneSeparatingSlash b p = true).
Proof.
  intros Hb Hp.
  assert (Eb : strings.TrimSuffix base "/" = b).
  { destruct Hb as [-> | [-> Hn]]; [apply TrimSuffix_app | now apply TrimSuffix_none]. }
  assert (Ep : strings.TrimPrefix ep "/" = p).
  { destruct Hp as [-> | [-> Hn]]; [apply TrimPrefix_app | now apply TrimPrefix_none]. }
  split; [exact Eb|]. split; [exact Ep|]. split; [|split].
  - intros r H. apply createRequest_Some in H as (_ & Hu & _).
    now rewrite Eb, Ep in Hu.
  - intros Hm. split.
    + intros u Hu. unfold createRequest. rewrite Eb, Ep.
      destruct (NewRequest_parsed url_Parse method_ _ body_ u Hm Hu) as (r0 & -> & HU).
      eexists. split; [reflexivity|].
      destruct (negb _ && negb _); exact HU.
    + intros err Hu. unfold createRequest. rewrite Eb, Ep.
      now rewrite (NewRequest_rejected url_Parse method_ _ body_ err Hm Hu).
  - intros H1 H2. unfold oneSeparatingSlash. now rewrite H1, H2.
Qed.

End AssemblerURL.

(** C3, the claim as it is written, fails on a base URL with two trailing
    slashes: one is removed, and two slashes separate [api] and [items]. *)
Lemma createRequest_doubled_slash :
  oneSeparatingSlash (strings.TrimSuffix "https://h/api//" "/")
                     (strings.TrimPrefix "/items" "/") = false
  /\ option_map (fun r => url.Path (http.URL r))
       (fst (createRequest Sample.Parse None "https://h/api//" "/items" "GET" None "" ""))
     = Some "https://h/api//items".
Proof. split; reflexivity. Qed.

(** ** configuration and construction *)

(** C8: [NewHttpConfig] copies the base URL, the user name and the password,
    and sets [accept] to the JSON media type when the argument is empty and
    to the argument otherwise; [NewDefaultHttpConfig] is [NewHttpConfig]
    with empty credentials and the JSON media type. *)
Theorem NewHttpConfig_fields (b u p a : string) :
  accept (NewHttpConfig b u p a) = (if String.eqb a "" then "application/json" else a)
  /\ baseURL (NewHttpConfig b u p a) = b
  /\ username (NewHttpConfig b u p a) = u
  /\ password (NewHttpConfig b u p a) = p
  /\ NewDefaultHttpConfig b = NewHttpConfig b "" "" jsonType
  /\ NewDefaultHttpConfig b = mkHttpConfig b "" "" "application/json".
Proof.
  unfold NewDefaultHttpConfig, NewHttpConfig.
  destruct (String.eqb a ""); simpl; repeat split; reflexivity.
Qed.

(** C9: [NewHttpClientWithConfig] panics on a nil configuration,
    [NewHttpClientWithConfigAndClient] on a nil configuration or a nil
    client; with the arguments present they return the client made of
    them. *)
Theorem constructors_panic_on_nil :
  NewHttpClientWithConfig None = Panic "config is nil"
  /\ (forall c, NewHttpClientWithConfigAndClient None c = Panic "config is nil")
  /\ (forall cfg, NewHttpClientWithConfigAndClient (Some cfg) None = Panic "client is nil")
  /\ (forall cfg, NewHttpClientWithConfig (Some cfg)
                  = Return (mkHttpClient (Some pooledClient) (Some cfg)))
  /\ (forall cfg c, NewHttpClientWithConfigAndClient (Some cfg) (Some c)
                    = Return (mkHttpClient (Some c) (Some cfg))).
Proof. repeat split. Qed.

(** ** the executor *)

Section Executor.

Variable URL_String : url.URL -> string.
Variable client_Do : http.Client -> http.Request -> option http.Response * option error.

(** [ExecuteRequest], one statement at a time: the request that goes on the
    wire is [dispatched r], and the answer of the transport decides the
    rest. *)
Lemma ExecuteRequest_unfold (h : HttpClient) (c : http.Client) (r : http.Request)
    (w : World) :
  client h = Some c ->
  ExecuteRequest URL_String client_Do h r w =
    let w' := mkWorld (dispatched r :: wire w) (stderr w) in
    match client_Do c (dispatched r) with
    | (resp, Some err) => handleError URL_String resp err w'
    | (resp, None) => (Return (resp, None), w')
    end.
Proof.
  intros Hc. unfold ExecuteRequest, dispatched.
  unfold mbind, IO_bind, lift, Do. rewrite Hc.
  case_bool_decide as Hctx; unfold createDefaultContext, WithContext, mret, IO_ret; simpl;
    rewrite ?Hctx;
    destruct (client_Do c _) as [resp [err|]]; reflexivity.
Qed.

(** [handleError] ends the process in its first statement. *)
Lemma handleError_exits (resp : option http.Response) (err : error) (w : World) :
  handleError URL_String resp err w = (Exit 1, mkWorld (wire w) (Error err :: stderr w)).
Proof. reflexivity. Qed.

(** C1, on the code: when the transport answers the request with an error,
    [ExecuteRequest] does not return it.  It writes the error to the
    standard logger and ends the process with exit code 1. *)
Theorem ExecuteRequest_transport_error_exits (h : HttpClient) (c : http.Client)
    (r : http.Request) (w : World) (resp : option http.Response) (err : error) :
  client h = Some c ->
  client_Do c (dispatched r) = (resp, Some err) ->
  ExecuteRequest URL_String client_Do h r w
  = (Exit 1, mkWorld (dispatched r :: wire w) (Error err :: stderr w)).
Proof.
  intros Hc Hd. rewrite (ExecuteRequest_unfold h c r w Hc), Hd. reflexivity.
Qed.

(** C2, on the code: a response the transport delivers without an error is
    returned as it is, with no error, whatever its status code; a 401 and a
    404 are returned like a 200. *)
Theorem ExecuteRequest_response_unclassified (h : HttpClient) (c : http.Client)
    (r : http.Request) (w : World) (resp : http.Response) :
  client h = Some c ->
  client_Do c (dispatched r) = (Some resp, None) ->
  ExecuteRequest URL_String client_Do h r w
  = (Return (Some resp, None), mkWorld (dispatched r :: wire w) (stderr w)).
Proof.
  intros Hc Hd. rewrite (ExecuteRequest_unfold h c r w Hc), Hd. reflexivity.
Qed.

(** C5, as the code has it: a request whose context is the background
    context goes on the wire under a context with the default timeout of 30
    seconds; a request with any other context goes on the wire as it is,
    whether that context has a deadline or not. *)
Theorem ExecuteRequest_default_deadline (h : HttpClient) (c : http.Client)
    (r : http.Request) (w : World) :
  client h = Some c ->
  (http.Request_Context r = Background ->
     wire (snd (ExecuteRequest URL_String client_Do h r w))
       = http.with_ctx r (WithTimeout Background (30 * 1000000000)) :: wire w
     /\ hasDeadline (http.Request_Context
                       (http.with_ctx r (WithTimeout Background (30 * 1000000000)))) = true)
  /\ (http.Request_Context r <> Background ->
     wire (snd (ExecuteRequest URL_String client_Do h r w)) = r :: wire w).
Proof.
  intros Hc. rewrite (ExecuteRequest_unfold h c r w Hc).
  unfold dispatched. split; intros Hctx.
  - rewrite bool_decide_eq_true_2 by exact Hctx.
    split; [|reflexivity].
    destruct (client_Do c _) as [resp [err|]]; reflexivity.
  - rewrite bool_decide_eq_false_2 by exact Hctx.
    destruct (client_Do c _) as [resp [err|]]; reflexivity.
Qed.

(** The classification [handleError] holds, were its logging statement to
    return: a 401 becomes an [UnauthorizedError] and a 404 a
    [NotFoundError], each with the URL of the request. *)
Lemma handleError_with_classifies (logFatal : error -> IO unit)
    (resp : http.Response) (rq : http.Request) (err : error) (w w1 : World) :
  logFatal err w = (Return tt, w1) ->
  http.Request_ resp = Some rq ->
  (http.StatusCode resp = 401 ->
     handleError_with URL_String logFatal (Some resp) err w
     = (Return (Some resp, Some (UnauthorizedError "Authentication required."
                                   (URL_String (http.URL rq)) 0)), w1))
  /\ (http.StatusCode resp = 404 ->
     handleError_with URL_String logFatal (Some resp) err w
     = (Return (Some resp, Some (NotFoundError "Resource not found."
                                   (URL_String (http.URL rq)))), w1)).
Proof.
  intros Hl Hrq. unfold handleError_with, mbind, IO_bind. rewrite Hl.
  split; intros Hs; simpl; rewrite Hs, Hrq; reflexivity.
Qed.


End Executor.

(** C5, the claim as it is written, fails on a request whose context is
    [context.TODO()]: the context has no deadline, and the request goes on
    the wire with that context. *)
Lemma ExecuteRequest_TODO_no_deadline :
  hasDeadline
    (http.Request_Context
       (http.mkRequest (Some TODO) "GET" (url.mkURL "" "" "https://h/api/items" "" "")
          ∅ None "")) = false
  /\ map (fun r => (http.Request_Context r, hasDeadline (http.Request_Context r)))
       (wire (snd (ExecuteRequest Sample.String_ Sample.Do
                     (NewDefaultHttpClient "https://h/api")
                     (http.mkRequest (Some TODO) "GET"
                        (url.mkURL "" "" "https://h/api/items" "" "") ∅ None "")
                     (mkWorld [] []))))
     = [(TODO, false)].
Proof. split; reflexivity. Qed.


(** ** the request builder *)

Section Builder.

Variable url_Parse : string -> url.URL + error.
Variable URL_Query : url.URL -> url.Values.
Variable Values_Encode : url.Values -> string.

(** C6, on the code: once a query parameter has been set, a builder whose
    method or path [http.NewRequest] refuses does not return the error.
    [Build] reads the URL of the request, which is nil, before it looks at
    the error, and panics. *)
Theorem Build_panics_on_invalid_with_query (rb : requestBuilder)
    (qp : gmap string string) (err : error) :
  queryParams rb = Some qp ->
  NewRequest url_Parse (method rb) (path rb) (body rb) = (None, Some err) ->
  Build url_Parse URL_Query Values_Encode rb = Panic nilDereference.
Proof.
  intros Hq Hn. unfold Build. rewrite Hn, Hq. reflexivity.
Qed.

(** Without query parameters the error of [http.NewRequest] is returned. *)
Lemma Build_returns_error_without_query (rb : requestBuilder) (err : error) :
  queryParams rb = None ->
  NewRequest url_Parse (method rb) (path rb) (body rb) = (None, Some err) ->
  Build url_Parse URL_Query Values_Encode rb = Return (None, Some err).
Proof.
  intros Hq Hn. unfold Build. rewrite Hn, Hq. reflexivity.
Qed.

End Builder.

(** * The theorems at sample inputs *)

Lemma createRequest_json_headers_witness :
  createRequest Sample.Parse None "https://h/api/" "/items" "GET" None "user" "pass"
    = (Some SampleData.assembled, None)
  /\ http.Header_Get (http.Header_ SampleData.assembled) "Content-Type" = "application/json"
  /\ http.Header_Get (http.Header_ SampleData.assembled) "Accept" = "application/json".
Proof.
  split; [reflexivity|].
  destruct (createRequest_json_headers Sample.Parse SampleData.cfg None "/items" "GET" None
              SampleData.assembled eq_refl) as (_ & _ & Hct & Hac & _).
  split; [exact Hct | exact Hac].
Defined.

Lemma createRequest_basic_auth_witness :
  createRequest Sample.Parse None "https://h/api/" "/items" "GET" None "user" "pass"
    = (Some SampleData.assembled, None)
  /\ http.Header_ SampleData.assembled !! "Authorization"
     = Some ["Basic " +:+ base64.EncodeToString "user:pass"].
Proof.
  split; [reflexivity|].
  destruct (createRequest_basic_auth Sample.Parse None "https://h/api/" "/items" "GET" None
              "user" "pass" SampleData.assembled eq_refl) as [Hauth _].
  apply Hauth. split; discriminate.
Defined.

Lemma createRequest_one_separating_slash_witness :
  strings.TrimSuffix "https://h/api/" "/" = "https://h/api"
  /\ strings.TrimPrefix "/items" "/" = "items"
  /\ oneSeparatingSlash "https://h/api" "items" = true.
Proof.
  destruct (createRequest_one_separating_slash Sample.Parse None
              "https://h/api" "items" "https://h/api/" "/items" "GET" None "" ""
              (or_introl eq_refl) (or_introl eq_refl)) as (H1 & H2 & _ & _ & H5).
  split; [exact H1|]. split; [exact H2|]. apply H5; reflexivity.
Defined.

Lemma ExecuteRequest_transport_error_exits_witness :
  ExecuteRequest Sample.String_ Sample.Do SampleData.h
    (SampleData.req Background "https://h/api/down") SampleData.w0
  = (Exit 1,
     mkWorld [SampleData.req (WithTimeout Background 30000000000) "https://h/api/down"]
             ["dial tcp: connection refused"]).
Proof.
  apply (ExecuteRequest_transport_error_exits Sample.String_ Sample.Do SampleData.h
           pooledClient (SampleData.req Background "https://h/api/down") SampleData.w0
           None SampleData.refused); reflexivity.
Defined.

Lemma ExecuteRequest_response_unclassified_witness :
  ExecuteRequest Sample.String_ Sample.Do SampleData.h
    (SampleData.req TODO "https://h/api/401") SampleData.w0
  = (Return (Some (http.mkResponse 401 ∅ ""
                     (Some (SampleData.req TODO "https://h/api/401"))), None),
     mkWorld [SampleData.req TODO "https://h/api/401"] []).
Proof.
  apply (ExecuteRequest_response_unclassified Sample.String_ Sample.Do SampleData.h
           pooledClient (SampleData.req TODO "https://h/api/401") SampleData.w0); reflexivity.
Defined.

Lemma ExecuteRequest_default_deadline_witness :
  wire (snd (ExecuteRequest Sample.String_ Sample.Do SampleData.h
               (SampleData.req Background "https://h/api/items") SampleData.w0))
  = [SampleData.req (WithTimeout Background 30000000000) "https://h/api/items"]
  /\ wire (snd (ExecuteRequest Sample.String_ Sample.Do SampleData.h
                  (SampleData.req (WithCancel Background) "https://h/api/items")
                  SampleData.w0))
     = [SampleData.req (WithCancel Background) "https://h/api/items"].
Proof.
  split.
  - apply (ExecuteRequest_default_deadline Sample.String_ Sample.Do SampleData.h pooledClient
             (SampleData.req Background "https://h/api/items") SampleData.w0 eq_refl).
    reflexivity.
  - apply (ExecuteRequest_default_deadline Sample.String_ Sample.Do SampleData.h pooledClient
             (SampleData.req (WithCancel Background) "https://h/api/items") SampleData.w0
             eq_refl).
    discriminate.
Defined.


Lemma Build_panics_on_invalid_with_query_witness :
  NewRequest Sample.Parse "GET" ":bad" None = (None, Some (errorString "missing protocol scheme"))
  /\ Build Sample.Parse Sample.Query Sample.Encode SampleData.badBuilder = Panic nilDereference.
Proof.
  split; [reflexivity|].
  apply (Build_panics_on_invalid_with_query Sample.Parse Sample.Query Sample.Encode
           SampleData.badBuilder (<["a" := "1"]> ∅) (errorString "missing protocol scheme"));
    reflexivity.
Defined.

(** ** examples *)

Example b64_user_pass : base64.EncodeToString "user:pass" = "dXNlcjpwYXNz".
Proof. reflexivity. Qed.
Example b64_pad2 : base64.EncodeToString "Aladdin:open sesame" = "QWxhZGRpbjpvcGVuIHNlc2FtZQ==".
Proof. reflexivity. Qed.
Example b64_pad1 : base64.EncodeToString "a:bc1" = "YTpiYzE=".
Proof. reflexivity. Qed.
Example canon1 : textproto.CanonicalMIMEHeaderKey "content-type" = "Content-Type".
Proof. reflexivity. Qed.
Example canon2 : textproto.CanonicalMIMEHeaderKey "Content-Type" = "Content-Type".
Proof. reflexivity. Qed.
Example trim1 : strings.TrimSuffix "https://h/api/" "/" = "https://h/api".
Proof. reflexivity. Qed.
Example trim2 : strings.TrimPrefix "/items" "/" = "items".
Proof. reflexivity. Qed.
Example trim3 : strings.TrimSuffix "https://h/api//" "/" = "https://h/api/".
Proof. reflexivity. Qed.
Example trim4 : strings.TrimSuffix "" "/" = "" /\ strings.TrimPrefix "" "/" = "".
Proof. split; reflexivity. Qed.
Example li1 : strings.LastIndexByte "a:b:c" ":" = 3 /\ strings.LastIndexByte "abc" ":" = -1.
Proof. split; reflexivity. Qed.

(** The example of the specification, and the three other ways to write
    the same base URL and path. *)
Example join_four_ways :
  map (fun '(base, ep) =>
         option_map (fun r => url.Path (http.URL r))
           (fst (createRequest Sample.Parse None base ep "GET" None "" "")))
      [("https://h/api/", "/items"); ("https://h/api", "/items");
       ("https://h/api/", "items"); ("https://h/api", "items")]
  = [Some "https://h/api/items"; Some "https://h/api/items";
     Some "https://h/api/items"; Some "https://h/api/items"].
Proof. reflexivity. Qed.

(** A 404 that the server sends comes back from [GetFrom] as a response,
    with no error. *)
Example GetFrom_404 :
  match GetFrom Sample.Parse Sample.String_ Sample.Do SampleData.h "/items/404" SampleData.w0 with
  | (Return (Some resp, None), _) => http.StatusCode resp = 404
  | _ => False
  end.
Proof. reflexivity. Qed.

(** A caller's context without a deadline is not given one. *)
Example GetFromWithContext_cancel_only :
  map (fun r => hasDeadline (http.Request_Context r))
      (wire (snd (GetFromWithContext Sample.Parse Sample.String_ Sample.Do SampleData.h
                    (Some (WithCancel Background)) "/items" SampleData.w0)))
  = [false].
Proof. reflexivity. Qed.

(** The verbs without a context run under the default timeout. *)
Example GetFrom_default_timeout :
  map http.Request_Context
      (wire (snd (GetFrom Sample.Parse Sample.String_ Sample.Do SampleData.h "/items"
                    SampleData.w0)))
  = [WithTimeout Background (30 * Second)].
Proof. reflexivity. Qed.

(** A builder with a valid path and two query parameters. *)
Example Build_two_params :
  match Build Sample.Parse Sample.Query Sample.Encode
          (QueryParam (QueryParam (Path (rb_Get NewRequestBuilder) "https://h/x") "b" "2") "a" "1") with
  | Return (Some r, None) => url.RawQuery (http.URL r) = "a=1&b=2"
  | _ => False
  end.
Proof. reflexivity. Qed.

(** The same path without query parameters: the error is returned. *)
Example Build_bad_path_no_query :
  Build Sample.Parse Sample.Query Sample.Encode (Path (rb_Get NewRequestBuilder) ":bad")
  = Return (None, Some (errorString "missing protocol scheme")).
Proof. reflexivity. Qed.

(** * Further properties of client.go *)

(** ** requests of the assembler *)

Section AssemblerMore.

Variable url_Parse : string -> url.URL + error.

(** X1: [createRequest] returns a request or an error, never both and never
    neither.  It returns a request exactly when the method, GET standing in
    for an empty one, is made of token bytes and the parser accepts the
    joined text, so an invalid method is an error whatever the URL is. *)
Theorem createRequest_request_xor_error (ctx : option Context)
    (base ep method_ : string) (body_ : option string) (user pw : string) :
  ((exists r, createRequest url_Parse ctx base ep method_ body_ user pw = (Some r, None))
   \/ (exists err, createRequest url_Parse ctx base ep method_ body_ user pw = (None, Some err)))
  /\ ((exists r, createRequest url_Parse ctx base ep method_ body_ user pw = (Some r, None))
      <-> http.validMethod (effectiveMethod method_) = true
          /\ exists u, url_Parse (strings.TrimSuffix base "/" +:+ "/" +:+ strings.TrimPrefix ep "/")
                       = inl u).
Proof.
  unfold createRequest, NewRequest, NewRequestWithContext, effectiveMethod.
  destruct (http.validMethod _) eqn:Hm; simpl.
  - destruct (url_Parse _) as [u|err] eqn:Hu; simpl.
    + split; [left; eauto|].
      split; [intros _; split; eauto | intros _; eauto].
    + split; [right; eauto|].
      split; [intros [r [=]] | intros [_ [u [=]]]].
  - split; [right; eauto|].
    split; [intros [r [=]] | intros [[=] _]].
Qed.

(** X2: a request of [createRequest] has the method it was asked for (GET
    for an empty one) and the body it was given, its host is the host of
    its URL, and its context is the background context: the context
    argument of [createRequest] is not used. *)
Theorem createRequest_request_fields (ctx : option Context)
    (base ep method_ : string) (body_ : option string) (user pw : string)
    (r : http.Request) :
  createRequest url_Parse ctx base ep method_ body_ user pw = (Some r, None) ->
  http.Method r = effectiveMethod method_
  /\ http.Body r = body_
  /\ http.Host r = url.Host (http.URL r)
  /\ http.ctx r = Some Background
  /\ forall ctx', createRequest url_Parse ctx' base ep method_ body_ user pw = (Some r, None).
Proof.
  unfold createRequest, NewRequest, NewRequestWithContext, effectiveMethod.
  destruct (negb (http.validMethod _)); [discriminate|].
  destruct (url_Parse _) as [u|err]; [|discriminate].
  destruct (negb _ && negb _); intros [= <-]; repeat split.
Qed.

(** X3: the header of a request of [createRequest] has the keys
    [Content-Type] and [Accept], the key [Authorization] when both
    credentials are non-empty, and no other key. *)
Theorem createRequest_header_keys (ctx : option Context)
    (base ep method_ : string) (body_ : option string) (user pw : string)
    (r : http.Request) (k : string) :
  createRequest url_Parse ctx base ep method_ body_ user pw = (Some r, None) ->
  is_Some (http.Header_ r !! k)
  <-> k = "Content-Type" \/ k = "Accept"
      \/ (k = "Authorization" /\ user <> "" /\ pw <> "").
Proof.
  intros H. apply createRequest_Some in H as (_ & _ & Hh).
  rewrite <- elem_of_dom, Hh. simpl.
  destruct (String.eqb_spec user "") as [Hu|Hu];
    destruct (String.eqb_spec pw "") as [Hp|Hp]; simpl;
    rewrite !dom_insert_L, dom_empty_L, !elem_of_union, !elem_of_singleton,
      elem_of_empty; intuition congruence.
Qed.

(** X4: the request methods of a client build the verb they are named
    after; GET and DELETE carry no body, POST and PUT the body given. *)
Theorem request_methods_verbs (h : HttpClient) (path_ : string) (body_ : option string)
    (r : http.Request) :
  (GetRequest url_Parse h path_ = Return (Some r, None) ->
     http.Method r = "GET" /\ http.Body r = None)
  /\ (PostRequest url_Parse h path_ body_ = Return (Some r, None) ->
     http.Method r = "POST" /\ http.Body r = body_)
  /\ (PutRequest url_Parse h path_ body_ = Return (Some r, None) ->
     http.Method r = "PUT" /\ http.Body r = body_)
  /\ (DeleteRequest url_Parse h path_ = Return (Some r, None) ->
     http.Method r = "DELETE" /\ http.Body r = None).
Proof.
  unfold GetRequest, PostRequest, PutRequest, DeleteRequest.
  destruct (config h) as [cfg|]; simpl;
    (split; [|split; [|split]]); intros E; try discriminate E; injection E as E;
    unfold createRequest, NewRequest, NewRequestWithContext in E; simpl in E;
    destruct (url_Parse _); try discriminate E;
    destruct (negb _ && negb _); injection E as <-; split; reflexivity.
Qed.

(** X5: a client made by [NewDefaultHttpClient] has no credentials, and
    the requests it builds carry no [Authorization] header. *)
Theorem default_client_no_authorization (base path_ : string) (body_ : option string)
    (r : http.Request) :
  GetRequest url_Parse (NewDefaultHttpClient base) path_ = Return (Some r, None)
  \/ PostRequest url_Parse (NewDefaultHttpClient base) path_ body_ = Return (Some r, None)
  \/ PutRequest url_Parse (NewDefaultHttpClient base) path_ body_ = Return (Some r, None)
  \/ DeleteRequest url_Parse (NewDefaultHttpClient base) path_ = Return (Some r, None) ->
  http.Header_ r !! "Authorization" = None
  /\ http.Header_Get (http.Header_ r) "Authorization" = "".
Proof.
  assert (G : forall m b, createRequest url_Parse None base path_ m b "" "" = (Some r, None) ->
              http.Header_ r !! "Authorization" = None).
  { intros m b H. apply createRequest_Some in H as (_ & _ & Hh).
    rewrite Hh. simpl. rewrite !lookup_insert_ne by done. apply lookup_empty. }
  unfold GetRequest, PostRequest, PutRequest, DeleteRequest. simpl.
  intros H.
  assert (Hn : http.Header_ r !! "Authorization" = None).
  { destruct H as [H|[H|[H|H]]]; injection H as H; eapply G; exact H. }
  split; [exact Hn|].
  unfold http.Header_Get. rewrite canonical_Authorization, Hn. reflexivity.
Qed.

End AssemblerMore.

(** ** the verbs of a client *)

Section Verbs.

Variable url_Parse : string -> url.URL + error.
Variable URL_String : url.URL -> string.
Variable client_Do : http.Client -> http.Request -> option http.Response * option error.

Lemma createRequest_ctx (ctx : option Context) (base ep method_ : string)
    (body_ : option string) (user pw : string) (r : http.Request) :
  createRequest url_Parse ctx base ep method_ body_ user pw = (Some r, None) ->
  http.ctx r = Some Background.
Proof.
  unfold createRequest, NewRequest, NewRequestWithContext.
  destruct (negb (http.validMethod _)); [discriminate|].
  destruct (url_Parse _) as [u|err]; [|discriminate].
  destruct (negb _ && negb _); intros [= <-]; reflexivity.
Qed.

Lemma with_ctx_same (r : http.Request) (c : Context) :
  http.ctx r = Some c -> http.with_ctx r c = r.
Proof. destruct r; simpl; now intros ->. Qed.

Lemma verb_methods_valid :
  http.validMethod (effectiveMethod http.MethodGet) = true
  /\ http.validMethod (effectiveMethod http.MethodPost) = true
  /\ http.validMethod (effectiveMethod http.MethodPut) = true
  /\ http.validMethod (effectiveMethod http.MethodDelete) = true.
Proof. repeat split. Qed.

(** What a verb does with the result of [createRequest]. *)
Ltac verb_unfold Hcfg :=
  unfold GetFromWithContext, PostToWithContext, PutToWithContext, DeleteFromWithContext,
    mbind, IO_bind, lift;
  rewrite Hcfg; simpl;
  destruct (createRequest _ _ _ _ _ _ _ _) as [[r|] [e|]]; try reflexivity;
  match goal with |- context [WithContext _ ?c] => destruct c end; reflexivity.

Lemma GetFromWithContext_unfold (h : HttpClient) (cfg : HttpConfig)
    (ctx : option Context) (path_ : string) (w : World) :
  config h = Some cfg ->
  GetFromWithContext url_Parse URL_String client_Do h ctx path_ w =
    match createRequest url_Parse ctx (baseURL cfg) path_ http.MethodGet None
            (username cfg) (password cfg), ctx with
    | (_, Some err), _ => (Return (None, Some err), w)
    | (None, None), _ => (Panic nilDereference, w)
    | (Some r, None), None => (Panic "nil context", w)
    | (Some r, None), Some c => ExecuteRequest URL_String client_Do h (http.with_ctx r c) w
    end.
Proof. intros Hcfg. verb_unfold Hcfg. Qed.

Lemma PostToWithContext_unfold (h : HttpClient) (cfg : HttpConfig)
    (ctx : option Context) (path_ : string) (body_ : option string) (w : World) :
  config h = Some cfg ->
  PostToWithContext url_Parse URL_String client_Do h ctx path_ body_ w =
    match createRequest url_Parse ctx (baseURL cfg) path_ http.MethodPost body_
            (username cfg) (password cfg), ctx with
    | (_, Some err), _ => (Return (None, Some err), w)
    | (None, None), _ => (Panic nilDereference, w)
    | (Some r, None), None => (Panic "nil context", w)
    | (Some r, None), Some c => ExecuteRequest URL_String client_Do h (http.with_ctx r c) w
    end.
Proof. intros Hcfg. verb_unfold Hcfg. Qed.

Lemma PutToWithContext_unfold (h : HttpClient) (cfg : HttpConfig)
    (ctx : option Context) (path_ : string) (body_ : option string) (w : World) :
  config h = Some cfg ->
  PutToWithContext url_Parse URL_String client_Do h ctx path_ body_ w =
    match createRequest url_Parse ctx (baseURL cfg) path_ http.MethodPut body_
            (username cfg) (password cfg), ctx with
    | (_, Some err), _ => (Return (None, Some err), w)
    | (None, None), _ => (Panic nilDereference, w)
    | (Some r, None), None => (Panic "nil context", w)
    | (Some r, None), Some c => ExecuteRequest URL_String client_Do h (http.with_ctx r c) w
    end.
Proof. intros Hcfg. verb_unfold Hcfg. Qed.

Lemma DeleteFromWithContext_unfold (h : HttpClient) (cfg : HttpConfig)
    (ctx : option Context) (path_ : string) (w : World) :
  config h = Some cfg ->
  DeleteFromWithContext url_Parse URL_String client_Do h ctx path_ w =
    match createRequest url_Parse ctx (baseURL cfg) path_ http.MethodDelete None
            (username cfg) (password cfg), ctx with
    | (_, Some err), _ => (Return (None, Some err), w)
    | (None, None), _ => (Panic nilDereference, w)
    | (Some r, None), None => (Panic "nil context", w)
    | (Some r, None), Some c => ExecuteRequest URL_String client_Do h (http.with_ctx r c) w
    end.
Proof. intros Hcfg. verb_unfold Hcfg. Qed.

(** X6: to build a request with a request method and hand it to
    [ExecuteRequest] is to call the verb without a context: for each of the
    four verbs, the two ways do the same to the world and give the same
    result. *)
Theorem request_then_execute_is_verb (h : HttpClient) (path_ : string)
    (body_ : option string) (r : http.Request) (w : World) :
  (GetRequest url_Parse h path_ = Return (Some r, None) ->
     ExecuteRequest URL_String client_Do h r w
     = GetFrom url_Parse URL_String client_Do h path_ w)
  /\ (PostRequest url_Parse h path_ body_ = Return (Some r, None) ->
     ExecuteRequest URL_String client_Do h r w
     = PostTo url_Parse URL_String client_Do h path_ body_ w)
  /\ (PutRequest url_Parse h path_ body_ = Return (Some r, None) ->
     ExecuteRequest URL_String client_Do h r w
     = PutTo url_Parse URL_String client_Do h path_ body_ w)
  /\ (DeleteRequest url_Parse h path_ = Return (Some r, None) ->
     ExecuteRequest URL_String client_Do h r w
     = DeleteFrom url_Parse URL_String client_Do h path_ w).
Proof.
  unfold GetRequest, PostRequest, PutRequest, DeleteRequest,
    GetFrom, PostTo, PutTo, DeleteFrom.
  destruct (config h) as [cfg|] eqn:Hcfg; simpl;
    (split; [|split; [|split]]); intros E; try discriminate E; injection E as E;
    rewrite ?(GetFromWithContext_unfold h cfg _ _ _ Hcfg),
      ?(PostToWithContext_unfold h cfg _ _ _ _ Hcfg),
      ?(PutToWithContext_unfold h cfg _ _ _ _ Hcfg),
      ?(DeleteFromWithContext_unfold h cfg _ _ _ Hcfg);
    change (createRequest url_Parse (Some Background)) with (createRequest url_Parse None);
    rewrite E, (with_ctx_same r Background (createRequest_ctx _ _ _ _ _ _ _ _ E));
    reflexivity.
Qed.

(** X7: when the URL parser refuses the joined text, each verb returns the
    error of the parser with a nil response; nothing goes on the wire and
    nothing is logged, whatever the context is, nil included. *)
Theorem verbs_return_construction_error (h : HttpClient) (cfg : HttpConfig)
    (ctx : option Context) (path_ : string) (body_ : option string) (err : error)
    (w : World) :
  config h = Some cfg ->
  url_Parse (strings.TrimSuffix (baseURL cfg) "/" +:+ "/" +:+ strings.TrimPrefix path_ "/")
    = inr err ->
  GetFromWithContext url_Parse URL_String client_Do h ctx path_ w
    = (Return (None, Some err), w)
  /\ PostToWithContext url_Parse URL_String client_Do h ctx path_ body_ w
     = (Return (None, Some err), w)
  /\ PutToWithContext url_Parse URL_String client_Do h ctx path_ body_ w
     = (Return (None, Some err), w)
  /\ DeleteFromWithContext url_Parse URL_String client_Do h ctx path_ w
     = (Return (None, Some err), w).
Proof.
  intros Hcfg Hu.
  rewrite (GetFromWithContext_unfold h cfg _ _ _ Hcfg),
    (PostToWithContext_unfold h cfg _ _ _ _ Hcfg),
    (PutToWithContext_unfold h cfg _ _ _ _ Hcfg),
    (DeleteFromWithContext_unfold h cfg _ _ _ Hcfg).
  unfold createRequest.
  rewrite !(NewRequest_rejected url_Parse _ _ _ err) by (reflexivity || exact Hu).
  repeat split.
Qed.

(** X8: a verb called with a nil context panics with ["nil context"] once
    the request is built: [createRequest] does not look at the context, and
    [Request.WithContext] refuses nil.  Nothing goes on the wire. *)
Theorem verbs_nil_context_panic (h : HttpClient) (cfg : HttpConfig)
    (path_ : string) (body_ : option string) (u : url.URL) (w : World) :
  config h = Some cfg ->
  url_Parse (strings.TrimSuffix (baseURL cfg) "/" +:+ "/" +:+ strings.TrimPrefix path_ "/")
    = inl u ->
  GetFromWithContext url_Parse URL_String client_Do h None path_ w = (Panic "nil context", w)
  /\ PostToWithContext url_Parse URL_String client_Do h None path_ body_ w
     = (Panic "nil context", w)
  /\ PutToWithContext url_Parse URL_String client_Do h None path_ body_ w
     = (Panic "nil context", w)
  /\ DeleteFromWithContext url_Parse URL_String client_Do h None path_ w
     = (Panic "nil context", w).
Proof.
  intros Hcfg Hu.
  rewrite (GetFromWithContext_unfold h cfg _ _ _ Hcfg),
    (PostToWithContext_unfold h cfg _ _ _ _ Hcfg),
    (PutToWithContext_unfold h cfg _ _ _ _ Hcfg),
    (DeleteFromWithContext_unfold h cfg _ _ _ Hcfg).
  unfold createRequest, NewRequest, NewRequestWithContext. simpl. rewrite Hu.
  repeat split; destruct (negb _ && negb _); reflexivity.
Qed.

(** X9: a verb puts exactly one request on the wire, the request
    [createRequest] assembles, under the caller's context; under the
    default timeout of 30 seconds when that context is the background
    context, as it is for the verbs without a context. *)
Theorem verbs_dispatch_once (h : HttpClient) (cfg : HttpConfig) (c : http.Client)
    (ctx : Context) (path_ method_ : string) (body_ : option string)
    (r : http.Request) (w : World) :
  config h = Some cfg ->
  client h = Some c ->
  createRequest url_Parse None (baseURL cfg) path_ method_ body_ (username cfg) (password cfg)
    = (Some r, None) ->
  let sent := http.with_ctx r (if bool_decide (ctx = Background)
                               then WithTimeout Background (30 * 1000000000)
                               else ctx) in
  (method_ = "GET" -> body_ = None ->
     wire (snd (GetFromWithContext url_Parse URL_String client_Do h (Some ctx) path_ w))
       = sent :: wire w)
  /\ (method_ = "POST" ->
     wire (snd (PostToWithContext url_Parse URL_String client_Do h (Some ctx) path_ body_ w))
       = sent :: wire w)
  /\ (method_ = "PUT" ->
     wire (snd (PutToWithContext url_Parse URL_String client_Do h (Some ctx) path_ body_ w))
       = sent :: wire w)
  /\ (method_ = "DELETE" -> body_ = None ->
     wire (snd (DeleteFromWithContext url_Parse URL_String client_Do h (Some ctx) path_ w))
       = sent :: wire w).
Proof.
  intros Hcfg Hc E sent.
  assert (W : wire (snd (ExecuteRequest URL_String client_Do h (http.with_ctx r ctx) w))
              = sent :: wire w).
  { rewrite (ExecuteRequest_unfold URL_String client_Do h c _ w Hc).
    assert (D : dispatched (http.with_ctx r ctx) = sent).
    { unfold dispatched, sent.
      change (http.Request_Context (http.with_ctx r ctx)) with ctx.
      case_bool_decide; reflexivity. }
    rewrite D. simpl. destruct (client_Do c sent) as [resp [e|]]; reflexivity. }
  rewrite (GetFromWithContext_unfold h cfg _ _ _ Hcfg),
    (PostToWithContext_unfold h cfg _ _ _ _ Hcfg),
    (PutToWithContext_unfold h cfg _ _ _ _ Hcfg),
    (DeleteFromWithContext_unfold h cfg _ _ _ Hcfg).
  change (createRequest url_Parse (Some ctx)) with (createRequest url_Parse None).
  unfold http.MethodGet, http.MethodPost, http.MethodPut, http.MethodDelete.
  (split; [|split; [|split]]); intros; subst; rewrite E; exact W.
Qed.

End Verbs.

(** ** the executor, configuration and construction *)

Section ExecutorMore.

Variable url_Parse : string -> url.URL + error.
Variable URL_String : url.URL -> string.
Variable client_Do : http.Client -> http.Request -> option http.Response * option error.

(** X10: [ExecuteRequest] puts exactly one request on the wire, whatever
    the transport answers; there is no second attempt.  That request has
    the method, URL, header, body and host of the one given, and a context
    with a deadline if the given one had one.  The answer returned is the
    answer of the transport to that request, and on an answer without an
    error nothing is logged. *)
Theorem ExecuteRequest_single_dispatch (h : HttpClient) (c : http.Client)
    (r : http.Request) (w : World) :
  client h = Some c ->
  exists r',
    wire (snd (ExecuteRequest URL_String client_Do h r w)) = r' :: wire w
    /\ http.Method r' = http.Method r /\ http.URL r' = http.URL r
    /\ http.Header_ r' = http.Header_ r /\ http.Body r' = http.Body r
    /\ http.Host r' = http.Host r
    /\ (hasDeadline (http.Request_Context r) = true ->
        http.Request_Context r' = http.Request_Context r)
    /\ (forall resp, client_Do c r' = (resp, None) ->
          ExecuteRequest URL_String client_Do h r w
          = (Return (resp, None), mkWorld (r' :: wire w) (stderr w))).
Proof.
  intros Hc. exists (dispatched r).
  rewrite (ExecuteRequest_unfold URL_String client_Do h c r w Hc).
  split.
  { simpl. destruct (client_Do c (dispatched r)) as [resp [e|]]; reflexivity. }
  unfold dispatched at 1 2 3 4 5 6.
  case_bool_decide as Hctx; simpl; repeat split;
    try (intros resp ->; reflexivity).
  rewrite Hctx. discriminate.
Qed.

(** X11: the [accept] field of a configuration made by [NewHttpConfig] is
    never empty, and to make a configuration again from the fields of one
    gives the same configuration. *)
Theorem NewHttpConfig_accept_nonempty (b u p a : string) :
  accept (NewHttpConfig b u p a) <> ""
  /\ NewHttpConfig (baseURL (NewHttpConfig b u p a)) (username (NewHttpConfig b u p a))
       (password (NewHttpConfig b u p a)) (accept (NewHttpConfig b u p a))
     = NewHttpConfig b u p a.
Proof.
  unfold NewHttpConfig.
  destruct (String.eqb_spec a "") as [->|Ha]; simpl.
  - split; [discriminate | reflexivity].
  - split; [exact Ha|].
    destruct (String.eqb_spec a "") as [E|_]; [contradiction | reflexivity].
Qed.

(** X12: a client that a constructor returns has its transport and its
    configuration present, so its request methods do not panic: they
    return what [createRequest] makes of the configuration.  The default
    client is the client [NewHttpClientWithConfig] makes of the default
    configuration. *)
Theorem constructed_clients_complete (h : HttpClient) (b : string)
    (cfg : option HttpConfig) (c : option http.Client) :
  h = NewDefaultHttpClient b
  \/ NewHttpClientWithConfig cfg = Return h
  \/ NewHttpClientWithConfigAndClient cfg c = Return h ->
  (exists c' cfg',
      client h = Some c' /\ config h = Some cfg'
      /\ forall path_,
           GetRequest url_Parse h path_
           = Return (createRequest url_Parse None (baseURL cfg') path_ "GET" None
                       (username cfg') (password cfg')))
  /\ NewHttpClientWithConfig (Some (NewDefaultHttpConfig b)) = Return (NewDefaultHttpClient b).
Proof.
  intros H. split; [|reflexivity].
  destruct H as [-> | [H | H]].
  - eexists _, _. repeat split.
  - destruct cfg as [cfg'|]; [|discriminate]. injection H as <-.
    eexists _, _. repeat split.
  - destruct cfg as [cfg'|]; [|discriminate].
    destruct c as [c'|]; [|discriminate]. injection H as <-.
    eexists _, _. repeat split.
Qed.

End ExecutorMore.

(** ** the request builder *)

Section BuilderMore.

Variable url_Parse : string -> url.URL + error.
Variable URL_Query : url.URL -> url.Values.
Variable Values_Encode : url.Values -> string.


(** The values [Build] adds to the query of the URL, key by key. *)
Lemma fold_Add_lookup (qp : gmap string string) (q0 : url.Values) (k : string) :
  map_fold (fun key value acc => url.Add acc key value) q0 qp !! k
  = match qp !! k with
    | Some v => Some ((q0 !!! k) ++ [v])%list
    | None => q0 !! k
    end.
Proof.
  revert qp.
  apply (map_fold_weak_ind
           (fun (res : url.Values) (m : gmap string string) =>
              res !! k = match m !! k with
                         | Some v => Some ((q0 !!! k) ++ [v])%list
                         | None => q0 !! k
                         end)).
  - rewrite lookup_empty. reflexivity.
  - intros i x m res Hi IH. unfold url.Add.
    destruct (decide (i = k)) as [->|Hne].
    + rewrite !lookup_insert_eq. rewrite Hi in IH.
      rewrite lookup_total_alt, IH, <- lookup_total_alt. reflexivity.
    + rewrite !lookup_insert_ne by exact Hne. exact IH.
Qed.

(** X13: [QueryParam] is an upsert.  The key holds the value set last, the
    other keys keep theirs, a second value for a key replaces the first,
    and the method, path and body of the builder are untouched. *)
Theorem QueryParam_upsert (rb : requestBuilder) (k v v' : string) :
  (exists m, queryParams (QueryParam rb k v) = Some m
             /\ m !! k = Some v
             /\ forall k', k' <> k ->
                  m !! k' = match queryParams rb with
                            | Some m0 => m0 !! k'
                            | None => None
                            end)
  /\ QueryParam (QueryParam rb k v') k v = QueryParam rb k v
  /\ method (QueryParam rb k v) = method rb
  /\ path (QueryParam rb k v) = path rb
  /\ body (QueryParam rb k v) = body rb.
Proof.
  split.
  - eexists. split; [reflexivity|]. split.
    + apply lookup_insert_eq.
    + intros k' Hk.
      rewrite lookup_insert_ne by congruence.
      destruct (queryParams rb); [reflexivity | apply lookup_empty].
  - split; [|repeat split].
    unfold QueryParam. simpl. f_equal. f_equal. apply insert_insert_eq.
Qed.


(** X15: when [http.NewRequest] accepts the method and the path and query
    parameters were set, [Build] returns that request with only the raw
    query of its URL replaced: by the encoding of the values the path
    already had in its query, each key set on the builder having its value
    appended after them. *)
Theorem Build_query_values (rb : requestBuilder) (qp : gmap string string)
    (r0 : http.Request) :
  queryParams rb = Some qp ->
  NewRequest url_Parse (method rb) (path rb) (body rb) = (Some r0, None) ->
  exists q : url.Values,
    Build url_Parse URL_Query Values_Encode rb
    = Return (Some (http.with_URL r0 (url.with_RawQuery (http.URL r0) (Values_Encode q))),
              None)
    /\ forall k, q !! k = match qp !! k with
                          | Some v => Some ((URL_Query (http.URL r0) !!! k) ++ [v])%list
                          | None => URL_Query (http.URL r0) !! k
                          end.
Proof.
  intros Hq Hn. eexists. split.
  - unfold Build. rewrite Hn, Hq. reflexivity.
  - intros k. apply fold_Add_lookup.
Qed.

(** X16: [AsJson] has no effect on what [Build] returns, and a request of
    [Build] has an empty header: no [Content-Type], no [Accept].  Its
    method is the method of the builder, GET when no verb was chosen, and
    its body the body of the builder. *)
Theorem Build_ignores_AsJson (rb : requestBuilder) :
  Build url_Parse URL_Query Values_Encode (AsJson rb)
  = Build url_Parse URL_Query Values_Encode rb
  /\ forall r e, Build url_Parse URL_Query Values_Encode rb = Return (Some r, e) ->
       e = None
       /\ http.Header_ r = ∅
       /\ http.Method r = effectiveMethod (method rb)
       /\ http.Body r = body rb.
Proof.
  split; [reflexivity|].
  intros r e. unfold Build, NewRequest, NewRequestWithContext, effectiveMethod.
  destruct (negb (http.validMethod _)); simpl.
  - destruct (queryParams rb); simpl; discriminate.
  - destruct (url_Parse _); simpl;
      destruct (queryParams rb); simpl; try discriminate;
      intros [= <- <-]; repeat split.
Qed.

(** X17: [Build] panics exactly when query parameters were set and
    [http.NewRequest] refuses the method or the path; in every other case
    it returns, with the request of [http.NewRequest] or with its error. *)
Theorem Build_panics_iff (rb : requestBuilder) :
  ((exists msg, Build url_Parse URL_Query Values_Encode rb = Panic msg)
   <-> queryParams rb <> None
       /\ fst (NewRequest url_Parse (method rb) (path rb) (body rb)) = None)
  /\ (queryParams rb = None ->
      Build url_Parse URL_Query Values_Encode rb
      = Return (NewRequest url_Parse (method rb) (path rb) (body rb)))
  /\ (forall code, Build url_Parse URL_Query Values_Encode rb <> Exit code).
Proof.
  unfold Build.
  destruct (NewRequest_cases url_Parse (method rb) (path rb) (body rb))
    as [[r0 ->] | [err ->]]; destruct (queryParams rb) as [qp|]; simpl.
  - split; [split; [intros [msg [=]] | intros [_ [=]]]|].
    split; [discriminate | discriminate].
  - split; [split; [intros [msg [=]] | intros [_ [=]]]|].
    split; [reflexivity | discriminate].
  - split; [split; [intros _; split; [discriminate | reflexivity] | eauto]|].
    split; [discriminate | discriminate].
  - split; [split; [intros [msg [=]] | intros [[] _]; reflexivity]|].
    split; [reflexivity | discriminate].
Qed.

End BuilderMore.

(** ** the first version of the client *)

Section LegacyFacts.

Variable url_Parse : string -> url.URL + error.
Variable client_Do : http.Client -> http.Request -> option http.Response * option error.

(** The request of the first [createRequest], spelled out. *)
Lemma Legacy_createRequest_Return (h : Legacy.HttpClient) (ep method_ : string)
    (body_ : option string) (r : http.Request) :
  Legacy.createRequest url_Parse h ep method_ body_ = Return r ->
  exists cfg u,
    Legacy.config h = Some cfg
    /\ url_Parse (strings.TrimSuffix (Legacy.baseUrl cfg) "/" +:+ "/" +:+ ep) = inl u
    /\ http.URL r = url.with_Host u (http.removeEmptyPort (url.Host u))
    /\ http.ctx r = Some Background.
Proof.
  unfold Legacy.createRequest.
  destruct (Legacy.config h) as [cfg|]; simpl; [|discriminate].
  unfold NewRequest, NewRequestWithContext.
  destruct (negb (http.validMethod _)); simpl; [discriminate|].
  destruct (url_Parse _) as [u|err] eqn:Hu; simpl; [|discriminate].
  intros [= <-]. exists cfg, u.
  destruct (negb _ && negb _); repeat split; exact Hu.
Qed.

(** X18: on an endpoint without a leading slash the first [createRequest]
    and the one of client.go agree: the request the later one returns is
    the request the first one returns, and the error the later one returns
    is the value the first one panics with. *)
Theorem Legacy_createRequest_agrees (h : Legacy.HttpClient) (cfg : Legacy.HttpConfig)
    (ep method_ : string) (body_ : option string) :
  Legacy.config h = Some cfg ->
  strings.HasPrefix ep "/" = false ->
  (forall r,
      createRequest url_Parse None (Legacy.baseUrl cfg) ep method_ body_
        (Legacy.username cfg) (Legacy.password cfg) = (Some r, None) ->
      Legacy.createRequest url_Parse h ep method_ body_ = Return r)
  /\ (forall err,
      createRequest url_Parse None (Legacy.baseUrl cfg) ep method_ body_
        (Legacy.username cfg) (Legacy.password cfg) = (None, Some err) ->
      Legacy.createRequest url_Parse h ep method_ body_ = Panic (Error err)).
Proof.
  intros Hcfg Hp.
  unfold createRequest, Legacy.createRequest. rewrite Hcfg. simpl.
  rewrite (TrimPrefix_none ep "/" Hp).
  destruct (NewRequest_cases url_Parse method_
              (strings.TrimSuffix (Legacy.baseUrl cfg) "/" +:+ "/" +:+ ep) body_)
    as [[r0 ->] | [err ->]]; simpl.
  - split; [|discriminate]. intros r [= <-]. reflexivity.
  - split; [discriminate|]. intros e [= <-]. reflexivity.
Qed.

(** X19: the first [createRequest] trims the base URL only.  The endpoint
    is joined as it is, so an endpoint with a leading slash is parsed with
    two slashes after the base, where client.go parses it with one. *)
Theorem Legacy_createRequest_keeps_leading_slash (h : Legacy.HttpClient)
    (cfg : Legacy.HttpConfig) (b p method_ : string) (body_ : option string)
    (r : http.Request) :
  Legacy.config h = Some cfg ->
  Legacy.baseUrl cfg = b +:+ "/" ->
  Legacy.createRequest url_Parse h ("/" +:+ p) method_ body_ = Return r ->
  (exists u, url_Parse (b +:+ "//" +:+ p) = inl u
             /\ http.URL r = url.with_Host u (http.removeEmptyPort (url.Host u)))
  /\ forall r', createRequest url_Parse None (Legacy.baseUrl cfg) ("/" +:+ p) method_ body_
                  (Legacy.username cfg) (Legacy.password cfg) = (Some r', None) ->
       exists u', url_Parse (b +:+ "/" +:+ p) = inl u'
                  /\ http.URL r' = url.with_Host u' (http.removeEmptyPort (url.Host u')).
Proof.
  intros Hcfg Hb H.
  apply Legacy_createRequest_Return in H as (cfg' & u & Hcfg' & Hu & HU & _).
  rewrite Hcfg in Hcfg'. injection Hcfg' as <-.
  rewrite Hb, TrimSuffix_app in Hu. split.
  - exists u. split; [|exact HU].
    replace (b +:+ "//" +:+ p) with (b +:+ "/" +:+ "/" +:+ p); [exact Hu|].
    reflexivity.
  - intros r' H'. apply createRequest_Some in H' as (_ & Hu' & _).
    rewrite Hb, TrimSuffix_app, TrimPrefix_app in Hu'. exact Hu'.
Qed.

(** X20: the first constructor takes a nil configuration without a check,
    and the first verb called on such a client panics on the nil pointer.
    On a client with its configuration and transport, [Get] sends the
    request of [createRequest] as it is, under the background context and
    so without a deadline; an error of the transport is the value of a
    panic, with nothing logged, and a response is returned as it is. *)
Theorem Legacy_Get_behaviour (h : Legacy.HttpClient) (c : http.Client) (ep : string)
    (r : http.Request) (w : World) :
  (forall w', Legacy.Get url_Parse client_Do (Legacy.NewHttpClient None) ep w'
              = (Panic nilDereference, w'))
  /\ (Legacy.client h = Some c ->
      Legacy.createRequest url_Parse h ep "GET" None = Return r ->
      hasDeadline (http.Request_Context r) = false
      /\ wire (snd (Legacy.Get url_Parse client_Do h ep w)) = r :: wire w
      /\ (forall resp err, client_Do c r = (resp, Some err) ->
            Legacy.Get url_Parse client_Do h ep w
            = (Panic (Error err), mkWorld (r :: wire w) (stderr w)))
      /\ (forall resp, client_Do c r = (resp, None) ->
            Legacy.Get url_Parse client_Do h ep w
            = (Return resp, mkWorld (r :: wire w) (stderr w)))).
Proof.
  split; [reflexivity|].
  intros Hc Hr.
  assert (Hctx : http.ctx r = Some Background).
  { apply Legacy_createRequest_Return in Hr as (? & ? & _ & _ & _ & Hctx). exact Hctx. }
  unfold Legacy.Get, Legacy.executeRequest, Do, mbind, IO_bind, lift.
  unfold http.MethodGet. rewrite Hr, Hc. simpl.
  split; [unfold http.Request_Context; now rewrite Hctx|].
  split; [destruct (client_Do c r) as [resp [e|]]; reflexivity|].
  split; intros; rewrite H; reflexivity.
Qed.

End LegacyFacts.

(** ** the further properties at sample inputs *)

Lemma createRequest_request_fields_witness :
  http.Method SampleData.assembled = "GET"
  /\ http.Body SampleData.assembled = None
  /\ http.ctx SampleData.assembled = Some Background.
Proof.
  destruct (createRequest_request_fields Sample.Parse (Some TODO) "https://h/api/" "/items"
              "" None "user" "pass" SampleData.assembled eq_refl)
    as (Hm & Hb & _ & Hc & _).
  split; [exact Hm|]. split; [exact Hb | exact Hc].
Defined.

Lemma createRequest_header_keys_witness :
  is_Some (http.Header_ SampleData.assembled !! "Authorization")
  /\ ~ is_Some (http.Header_ SampleData.assembled !! "User-Agent").
Proof.
  split.
  - apply (createRequest_header_keys Sample.Parse None "https://h/api/" "/items" "GET" None
             "user" "pass" SampleData.assembled "Authorization" eq_refl).
    right. right. repeat split; discriminate.
  - intros H.
    apply (createRequest_header_keys Sample.Parse None "https://h/api/" "/items" "GET" None
             "user" "pass" SampleData.assembled "User-Agent" eq_refl) in H.
    destruct H as [H | [H | [H _]]]; discriminate H.
Defined.

Lemma request_methods_verbs_witness :
  http.Method (SampleMore.authed "POST" "https://h/api/items" (Some "{}")) = "POST"
  /\ http.Body (SampleMore.authed "POST" "https://h/api/items" (Some "{}")) = Some "{}".
Proof.
  destruct (request_methods_verbs Sample.Parse SampleData.h "/items" (Some "{}")
              (SampleMore.authed "POST" "https://h/api/items" (Some "{}")))
    as (_ & Hpost & _ & _).
  apply Hpost. reflexivity.
Defined.

Lemma default_client_no_authorization_witness :
  GetRequest Sample.Parse (NewDefaultHttpClient "https://h/api") "/items"
    = Return (Some (SampleMore.plain "GET" "https://h/api/items" None), None)
  /\ http.Header_ (SampleMore.plain "GET" "https://h/api/items" None) !! "Authorization"
     = None.
Proof.
  split; [reflexivity|].
  apply (default_client_no_authorization Sample.Parse "https://h/api" "/items" None
           (SampleMore.plain "GET" "https://h/api/items" None)).
  left. reflexivity.
Defined.

Lemma request_then_execute_is_verb_witness :
  ExecuteRequest Sample.String_ Sample.Do SampleData.h SampleData.assembled SampleData.w0
  = GetFrom Sample.Parse Sample.String_ Sample.Do SampleData.h "/items" SampleData.w0.
Proof.
  apply (request_then_execute_is_verb Sample.Parse Sample.String_ Sample.Do SampleData.h
           "/items" None SampleData.assembled SampleData.w0).
  reflexivity.
Defined.

Lemma verbs_return_construction_error_witness :
  GetFromWithContext Sample.Parse Sample.String_ Sample.Do SampleMore.badClient
    (Some TODO) "/items" SampleData.w0
  = (Return (None, Some (errorString "missing protocol scheme")), SampleData.w0).
Proof.
  apply (verbs_return_construction_error Sample.Parse Sample.String_ Sample.Do
           SampleMore.badClient SampleMore.badCfg (Some TODO) "/items" None
           (errorString "missing protocol scheme") SampleData.w0); reflexivity.
Defined.

Lemma verbs_nil_context_panic_witness :
  PostToWithContext Sample.Parse Sample.String_ Sample.Do SampleData.h None "/items"
    (Some "{}") SampleData.w0
  = (Panic "nil context", SampleData.w0).
Proof.
  apply (verbs_nil_context_panic Sample.Parse Sample.String_ Sample.Do SampleData.h
           SampleData.cfg "/items" (Some "{}") (url.mkURL "" "" "https://h/api/items" "" "")
           SampleData.w0); reflexivity.
Defined.

Lemma verbs_dispatch_once_witness :
  wire (snd (GetFromWithContext Sample.Parse Sample.String_ Sample.Do SampleData.h
               (Some Background) "/items" SampleData.w0))
  = [http.with_ctx SampleData.assembled (WithTimeout Background 30000000000)]
  /\ wire (snd (GetFromWithContext Sample.Parse Sample.String_ Sample.Do SampleData.h
                  (Some (WithCancel TODO)) "/items" SampleData.w0))
     = [http.with_ctx SampleData.assembled (WithCancel TODO)].
Proof.
  split.
  - apply (verbs_dispatch_once Sample.Parse Sample.String_ Sample.Do SampleData.h
             SampleData.cfg pooledClient Background "/items" "GET" None
             SampleData.assembled SampleData.w0 eq_refl eq_refl eq_refl); reflexivity.
  - apply (verbs_dispatch_once Sample.Parse Sample.String_ Sample.Do SampleData.h
             SampleData.cfg pooledClient (WithCancel TODO) "/items" "GET" None
             SampleData.assembled SampleData.w0 eq_refl eq_refl eq_refl); reflexivity.
Defined.

Lemma ExecuteRequest_single_dispatch_witness :
  exists r',
    wire (snd (ExecuteRequest Sample.String_ Sample.Do SampleData.h
                 (SampleData.req TODO "https://h/api/down") SampleData.w0)) = [r']
    /\ http.URL r' = url.mkURL "" "" "https://h/api/down" "" "".
Proof.
  destruct (ExecuteRequest_single_dispatch Sample.String_ Sample.Do SampleData.h
              pooledClient (SampleData.req TODO "https://h/api/down") SampleData.w0 eq_refl)
    as (r' & Hw & _ & Hu & _).
  exists r'. split; [exact Hw | exact Hu].
Defined.

Lemma constructed_clients_complete_witness :
  exists c' cfg',
    client (NewDefaultHttpClient "https://h/api") = Some c'
    /\ config (NewDefaultHttpClient "https://h/api") = Some cfg'.
Proof.
  destruct (constructed_clients_complete Sample.Parse (NewDefaultHttpClient "https://h/api")
              "https://h/api" None None (or_introl eq_refl))
    as [(c' & cfg' & Hc & Hcfg & _) _].
  exists c', cfg'. split; [exact Hc | exact Hcfg].
Defined.


Lemma Build_query_values_witness :
  exists q : url.Values,
    Build Sample.Parse Sample.Query Sample.Encode
      (QueryParam (QueryParam SampleMore.goodBuilder "b" "2") "a" "1")
    = Return (Some (http.with_URL (SampleMore.bare "GET" "https://h/x")
                      (url.with_RawQuery (http.URL (SampleMore.bare "GET" "https://h/x"))
                         (Sample.Encode q))), None)
    /\ q !! "a" = Some ["1"] /\ q !! "c" = None.
Proof.
  destruct (Build_query_values Sample.Parse Sample.Query Sample.Encode
              (QueryParam (QueryParam SampleMore.goodBuilder "b" "2") "a" "1")
              (<["a" := "1"]> (<["b" := "2"]> ∅))
              (SampleMore.bare "GET" "https://h/x") eq_refl eq_refl)
    as (q & HB & Hq).
  exists q. split; [exact HB|]. split.
  - exact (Hq "a").
  - exact (Hq "c").
Defined.

Lemma Build_ignores_AsJson_witness :
  Build Sample.Parse Sample.Query Sample.Encode (AsJson SampleMore.goodBuilder)
    = Return (Some (SampleMore.bare "GET" "https://h/x"), None)
  /\ http.Header_ (SampleMore.bare "GET" "https://h/x") = ∅.
Proof.
  destruct (Build_ignores_AsJson Sample.Parse Sample.Query Sample.Encode
              SampleMore.goodBuilder) as [Heq Hr].
  split.
  - rewrite Heq. reflexivity.
  - apply (Hr (SampleMore.bare "GET" "https://h/x") None). reflexivity.
Defined.

Lemma Legacy_createRequest_agrees_witness :
  Legacy.createRequest Sample.Parse SampleMore.legacyClient "items" "GET" None
  = Return (SampleMore.plain "GET" "https://h/api/items" None).
Proof.
  apply (Legacy_createRequest_agrees Sample.Parse SampleMore.legacyClient
           SampleMore.legacyCfg "items" "GET" None eq_refl eq_refl).
  reflexivity.
Defined.

Lemma Legacy_createRequest_keeps_leading_slash_witness :
  (exists u, Sample.Parse "https://h/api//items" = inl u
             /\ http.URL (SampleMore.plain "GET" "https://h/api//items" None)
                = url.with_Host u (http.removeEmptyPort (url.Host u)))
  /\ createRequest Sample.Parse None "https://h/api/" "/items" "GET" None "" ""
     = (Some (SampleMore.plain "GET" "https://h/api/items" None), None).
Proof.
  split; [|reflexivity].
  apply (Legacy_createRequest_keeps_leading_slash Sample.Parse SampleMore.legacyClient
           SampleMore.legacyCfg "https://h/api" "items" "GET" None
           (SampleMore.plain "GET" "https://h/api//items" None) eq_refl eq_refl eq_refl).
Defined.

Lemma Legacy_Get_behaviour_witness :
  Legacy.Get Sample.Parse Sample.Do SampleMore.legacyClient "down" SampleData.w0
  = (Panic "dial tcp: connection refused",
     mkWorld [SampleMore.plain "GET" "https://h/api/down" None] []).
Proof.
  destruct (Legacy_Get_behaviour Sample.Parse Sample.Do SampleMore.legacyClient pooledClient
              "down" (SampleMore.plain "GET" "https://h/api/down" None) SampleData.w0)
    as [_ H].
  destruct (H eq_refl eq_refl) as (_ & _ & Herr & _).
  apply (Herr None SampleData.refused). reflexivity.
Defined.
